(** * PagedIterator: a cached, paged, read-only sequence

    A shallow embedding of [pagediterator.py].  The class [PagedIterator]
    is a base class: a subclass overrides the properties [page_size] and
    [total_size] and the method [get_page], and inherits the container
    protocol ([__len__], [__contains__], [__getitem__], [__setitem__],
    [__delitem__]) and the iterator protocol ([__iter__], [next]).

    The embedding keeps that split.  The overridable members form the
    record [PageSource]; the inherited methods are functions over an
    instance state, written in a small state-and-exception monad. *)

From Stdlib Require Import ZArith String List Lia.
From stdpp Require Import base option list gmap strings pretty.

Open Scope Z_scope.

(** ** Python values

    The objects a caller can pass as an index.  [bool] is a subclass of
    [int] in Python, so [isinstance(True, int)] holds.  A tuple is what
    [it[1, 2]] passes to [__getitem__]; its components are kept scalar so
    that no [repr] is ever needed. *)

Inductive scalar : Type :=
| PyInt (z : Z)
| PyBool (b : bool)
| PyStr (s : string)
| PyNone.

Inductive pyobj : Type :=
| Scalar (a : scalar)
| PyTuple (items : list scalar).

Coercion Scalar : scalar >-> pyobj.

(** [isinstance(o, int)], with the integer the object then denotes in
    arithmetic and comparisons: [Some] exactly when the test holds. *)
Definition as_int (o : pyobj) : option Z :=
  match o with
  | Scalar (PyInt z) => Some z
  | Scalar (PyBool b) => Some (Z.b2z b)
  | _ => None
  end.

(** [str(a)], as the conversion [%s] applies it. *)
Definition str (a : scalar) : string :=
  match a with
  | PyInt z => pretty z
  | PyBool true => "True"
  | PyBool false => "False"
  | PyStr s => s
  | PyNone => "None"
  end.

(** ** Exceptions

    Exceptions raised by the interpreter itself are identified by their
    class only, their texts differ between Python versions.  A page source
    may raise any exception, of these classes or of a class of its own
    ([OtherError]). *)

Inductive exn : Type :=
| ValueError (msg : string)
| IndexError (msg : string)
| RuntimeError (msg : string)
| AttributeError (msg : string)
| KeyError (key : Z)
| TypeError
| ZeroDivisionError
| OverflowError
| AssertionError
| StopIteration
| OtherError (cls msg : string).

Inductive result (A : Type) : Type :=
| Ok (a : A)
| Raise (e : exn).

Arguments Ok {A} a.
Arguments Raise {A} e.

Definition returned {A} (r : result A) : bool :=
  match r with Ok _ => true | Raise _ => false end.

(** ** Built-in operations used by the class *)

(** [prefix_with_%s % o], for a format string that ends in its only
    conversion [%s].  A tuple on the right of [%] is the argument list, so
    only a one-element tuple matches the single conversion. *)
Definition format_s (prefix : string) (o : pyobj) : result string :=
  match o with
  | Scalar a => Ok (prefix +:+ str a)
  | PyTuple [a] => Ok (prefix +:+ str a)
  | PyTuple _ => Raise TypeError
  end.

(** [(int) (a / b)] on integers, as Python 3 evaluates it: [/] is true
    division, whose result is the double nearest to the quotient (ties
    go to the even mantissa), and [int] drops the fraction of that
    double.  A quotient too large for a double raises [OverflowError].
    The result is the floor quotient when [0 <= a < 2^53] and [0 < b]
    (lemma [int_quotient_exact]); it is another integer for larger [a]
    and for a negative [b]. *)

(** The [k] with [2^k <= a / b < 2^(k+1)], for positive [a] and [b]. *)
Definition binade (a b : Z) : Z :=
  if decide (b ≤ a) then Z.log2 (a / b) else - Z.log2_up ((b + a - 1) / a).

(** The double nearest to [a / b], for positive [a] and [b], as [(m, e)]
    standing for [m * 2^e]: 53 bits of mantissa, fewer below the
    smallest normal exponent. *)
Definition nearest_double (a b : Z) : Z * Z :=
  let e := Z.max (binade a b - 52) (-1074) in
  let num := a * 2 ^ Z.max (- e) 0 in
  let den := b * 2 ^ Z.max e 0 in
  let q := num / den in
  let r := num mod den in
  (if decide (den < 2 * r ∨ (2 * r = den ∧ Z.odd q = true)) then q + 1 else q, e).

(** [int(x)] for the double [m * 2^e], [0 <= m]. *)
Definition int_of_double (m e : Z) : Z :=
  if decide (0 ≤ e) then m * 2 ^ e else m / 2 ^ (- e).

Definition int_quotient (a b : Z) : result Z :=
  if decide (b = 0) then Raise ZeroDivisionError
  else if decide (a = 0) then Ok 0
  else
    let '(m, e) := nearest_double (Z.abs a) (Z.abs b) in
    if decide (0 ≤ e ∧ 2 ^ 1024 ≤ m * 2 ^ e) then Raise OverflowError
    else Ok (Z.sgn a * Z.sgn b * int_of_double m e).

(** [a % b]: the result has the sign of [b], as [Z.modulo]. *)
Definition py_mod (a b : Z) : result Z :=
  if decide (b = 0) then Raise ZeroDivisionError else Ok (a mod b).

(** [l[i]] on a list: a negative index counts from the end. *)
Definition list_getitem {A} (l : list A) (i : Z) : result A :=
  let j := if decide (i < 0) then i + Z.of_nat (length l) else i in
  if decide (j < 0) then Raise (IndexError "list index out of range")
  else match l !! Z.to_nat j with
       | Some x => Ok x
       | None => Raise (IndexError "list index out of range")
       end.

Section PagedIterator.

(** [item] is the type of the elements, [Fields] the attributes a subclass
    adds to the instance, [maxsize] is [sys.maxsize]. *)
Context {item Fields : Type}.
Variable maxsize : N.

(** The members a subclass overrides.  The two properties read the
    subclass attributes; [get_page] may also change them (the sources in
    the docstring set the total size while fetching). *)
Record PageSource : Type := {
  page_size : Fields → result Z;
  total_size : Fields → result pyobj;
  get_page : Z → Fields → result (list item) * Fields
}.

(** The members as [PagedIterator] itself defines them. *)
Definition PagedIterator : PageSource := {|
  page_size := λ _, Raise (RuntimeError "page_size() must be implemented.");
  total_size := λ _, Ok (Scalar (PyInt 0));
  get_page := λ _ s, (Raise (RuntimeError "get_page() must be implemented."), s)
|}.

(** The instance: [cached_pages] and [index] are set by [__init__],
    [fields] are the subclass attributes.  [fetched] is a ghost field:
    the page number of every call of [get_page] made by the class, in
    order, with whether the call returned. *)
Record instance : Type := {
  cached_pages : gmap Z (list item);
  index : Z;
  fields : Fields;
  fetched : list (Z * bool)
}.

(** [__init__], followed by the subclass constructor leaving [s]. *)
Definition __init__ (s : Fields) : instance :=
  {| cached_pages := ∅; index := 0; fields := s; fetched := [] |}.

(** *** The monad of methods: state and exceptions *)

Definition M (A : Type) : Type := instance → result A * instance.

#[local] Instance M_ret : MRet M := λ A a st, (Ok a, st).
#[local] Instance M_bind : MBind M := λ A B f m st,
  match m st with
  | (Ok a, st') => f a st'
  | (Raise e, st') => (Raise e, st')
  end.

Definition raise {A} (e : exn) : M A := λ st, (Raise e, st).

Definition lift {A} (r : result A) : M A := λ st, (r, st).

Definition get {A} (f : instance → A) : M A := λ st, (Ok (f st), st).

(** Reading a property of the subclass. *)
Definition property {A} (p : Fields → result A) : M A := λ st, (p (fields st), st).

Definition set_index (i : Z) : M () := λ st,
  (Ok (), {| cached_pages := cached_pages st; index := i;
             fields := fields st; fetched := fetched st |}).

Definition set_cached_pages (c : gmap Z (list item)) : M () := λ st,
  (Ok (), {| cached_pages := c; index := index st;
             fields := fields st; fetched := fetched st |}).

Variable P : PageSource.

(** [self.get_page(page)], recorded in [fetched]. *)
Definition call_get_page (page : Z) : M (list item) := λ st,
  let '(r, s) := get_page P page (fields st) in
  (r, {| cached_pages := cached_pages st; index := index st;
         fields := s; fetched := fetched st ++ [(page, returned r)] |}).

(** *** The container protocol *)

(** [return self.total_size] *)
Definition __len__ : M pyobj := property (total_size P).

(** The built-in [len(self)]: it calls [__len__] and accepts a
    non-negative integer that fits an index. *)
Definition len : M Z :=
  v ← __len__;
  match as_int v with
  | None => raise TypeError
  | Some n =>
      if decide (n < 0) then raise (ValueError "__len__() should return >= 0")
      else if decide (Z.of_N maxsize < n) then raise OverflowError
      else mret n
  end.

(** [assert isinstance(offset, int)]
    [return offset >= 0 and offset < len(self)]
    Assertions are enabled, as they are unless the interpreter is run
    with [-O]; [and] does not evaluate [len(self)] when the offset is
    negative. *)
Definition __contains__ (offset : pyobj) : M bool :=
  match as_int offset with
  | None => raise AssertionError
  | Some o =>
      if decide (0 ≤ o) then n ← len; mret (bool_decide (o < n))
      else mret false
  end.

(** [if not isinstance(offset, int): raise ValueError(... % offset)]
    [if offset not in self: raise IndexError(... % offset)]
    [page = (int) (offset / self.page_size)]
    [if page not in self.cached_pages:]
    [    self.cached_pages[page] = self.get_page(page)]
    [return self.cached_pages[page][offset % self.page_size]]
    The message is formatted before the exception is built, the page is
    stored only once [get_page] has returned, and [page_size] is read
    again for the position in the page. *)
Definition __getitem__ (offset : pyobj) : M item :=
  match as_int offset with
  | None =>
      msg ← lift (format_s "Index must be a positive integer: " offset);
      raise (ValueError msg)
  | Some o =>
      inside ← __contains__ offset;
      if negb inside then
        msg ← lift (format_s "Index out of bounds: " offset);
        raise (IndexError msg)
      else
        size ← property (page_size P);
        page ← lift (int_quotient o size);
        cache ← get cached_pages;
        (if decide (is_Some (cache !! page)) then mret ()
         else
           fetched_page ← call_get_page page;
           cache ← get cached_pages;
           set_cached_pages (<[page := fetched_page]> cache));;
        cache ← get cached_pages;
        match cache !! page with
        | None => raise (KeyError page)
        | Some items =>
            size ← property (page_size P);
            i ← lift (py_mod o size);
            lift (list_getitem items i)
        end
  end.

Definition __setitem__ {V : Type} (key : pyobj) (value : V) : M () :=
  raise (RuntimeError "Setting values is not allowed.").

Definition __delitem__ (key : pyobj) : M () :=
  raise (RuntimeError "Unsetting values is not allowed.").

(** *** The iterator protocol *)

(** [self.index = 0; return self]: the instance is the state, so the
    result carries nothing. *)
Definition __iter__ : M () := set_index 0.

(** [assert isinstance(self.total_size, int)]
    [if self.index >= self.total_size: raise StopIteration]
    [self.index += 1]
    [return self[self.index - 1]] *)
Definition next : M item :=
  total ← property (total_size P);
  match as_int total with
  | None => raise AssertionError
  | Some n =>
      i ← get index;
      if decide (n ≤ i) then raise StopIteration
      else
        set_index (i + 1);;
        i ← get index;
        __getitem__ (Scalar (PyInt (i - 1)))
  end.

(** [return self.next()] *)
Definition __next__ : M item := next.

(** The loop [for x in it: result.append(x)] once [iter(it)] has been
    taken: [next] is called until it raises [StopIteration], which ends
    the loop normally; any other exception leaves the loop.  [None] is
    returned when [fuel] calls were not enough. *)
Fixpoint for_loop (fuel : nat) (acc : list item) : M (option (list item)) :=
  match fuel with
  | O => mret None
  | S fuel' => λ st,
      match next st with
      | (Ok x, st') => for_loop fuel' (acc ++ [x]) st'
      | (Raise StopIteration, st') => (Ok (Some acc), st')
      | (Raise e, st') => (Raise e, st')
      end
  end.

(** [result = []; for x in it: result.append(x)]. *)
Definition traverse (fuel : nat) : M (option (list item)) :=
  __iter__;; for_loop fuel [].

(** *** Clients

    What a client can do with an instance, and the instance it is left
    with; a value assigned by [it[k] = v] plays no part and is left
    out. *)
Inductive call : Type :=
| CallLen
| CallContains (offset : pyobj)
| CallGetitem (offset : pyobj)
| CallSetitem (key : pyobj)
| CallDelitem (key : pyobj)
| CallIter
| CallNext.

Definition exec (c : call) (st : instance) : instance :=
  match c with
  | CallLen => snd (len st)
  | CallContains offset => snd (__contains__ offset st)
  | CallGetitem offset => snd (__getitem__ offset st)
  | CallSetitem key => snd (__setitem__ key () st)
  | CallDelitem key => snd (__delitem__ key st)
  | CallIter => snd (__iter__ st)
  | CallNext => snd (next st)
  end.

Definition run (cs : list call) (st : instance) : instance :=
  foldl (λ st c, exec c st) st cs.

(** *** Vocabulary of the statements *)

(** The instance with its cursor moved to [i]. *)
Definition with_index (i : Z) (st : instance) : instance := snd (set_index i st).

(** The pages [get_page] returned, in the order of the calls. *)
Definition pages_returned (st : instance) : list Z :=
  (filter (λ c, snd c = true) (fetched st)).*1.

(** Every page [get_page] was called for, in the order of the calls. *)
Definition pages_requested (st : instance) : list Z := (fetched st).*1.

(** No page is asked for again once a call of [get_page] for it has
    returned. *)
Fixpoint fetched_once (log : list (Z * bool)) : Prop :=
  match log with
  | [] => True
  | (page, ok) :: rest => (ok = true → page ∉ rest.*1) ∧ fetched_once rest
  end.

(** The pages that were returned are cached. *)
Definition returned_cached (st : instance) : Prop :=
  ∀ page, (page, true) ∈ fetched st → is_Some (cached_pages st !! page).

(** [offset] is a valid index: [len(self)] returns and bounds it. *)
Definition in_bounds (st : instance) (o : Z) : Prop :=
  ∃ n, len st = (Ok n, st) ∧ 0 ≤ o < n.

(** What one method call may do to the cache, the subclass attributes
    and the record of fetches: nothing, or one call of [get_page] for a
    page that is not cached, whose result is stored when it returns. *)
Inductive fetch_step (st st' : instance) : Prop :=
| no_fetch :
    cached_pages st' = cached_pages st →
    fields st' = fields st →
    fetched st' = fetched st →
    fetch_step st st'
| one_fetch (o size page : Z) (r : result (list item)) :
    in_bounds st o →
    page_size P (fields st) = Ok size →
    int_quotient o size = Ok page →
    cached_pages st !! page = None →
    fst (get_page P page (fields st)) = r →
    cached_pages st' =
      match r with
      | Ok items => <[page := items]> (cached_pages st)
      | Raise _ => cached_pages st
      end →
    fields st' = snd (get_page P page (fields st)) →
    fetched st' = fetched st ++ [(page, returned r)] →
    fetch_step st st'.

(** A page source that behaves as the docstrings of the class ask, on
    the attribute states [ready] it lives in: [page_size] is a positive
    constant, [total_size] a constant that [len] accepts, and a page in
    range is returned and holds at least the items of the sequence that
    fall on it (pages of equal size, but for the last one).  The total
    is at most [2^53], so that the division of every valid offset is
    exact. *)
Record conforming (ready : Fields → Prop) (total size : Z) : Prop := {
  conforming_size : 0 < size;
  conforming_total : 0 ≤ total ≤ Z.of_N maxsize;
  conforming_exact : total ≤ 2 ^ 53;
  conforming_page_size : ∀ s, ready s → page_size P s = Ok size;
  conforming_total_size : ∀ s, ready s → total_size P s = Ok (Scalar (PyInt total));
  conforming_get_page : ∀ page s, ready s → 0 ≤ page → page * size < total →
    ∃ items, fst (get_page P page s) = Ok items
             ∧ Z.min size (total - page * size) ≤ Z.of_nat (length items)
             ∧ ready (snd (get_page P page s))
}.

(** The cached pages are long enough for the sequence. *)
Definition pages_filled (total size : Z) (c : gmap Z (list item)) : Prop :=
  ∀ page items, c !! page = Some items →
    Z.min size (total - page * size) ≤ Z.of_nat (length items).

(** The item the cache holds for [offset], if its page is cached. *)
Definition cached_item (size : Z) (c : gmap Z (list item)) (o : Z) : option item :=
  items ← c !! (o / size); items !! Z.to_nat (o mod size).

(** Page [page] of a flat list cut in pages of [size] items. *)
Definition slice (flat : list item) (size page : Z) : list item :=
  take (Z.to_nat size) (drop (Z.to_nat (page * size)) flat).

(** A page source that serves the flat list [flat] in pages of [size]
    items: page [p] is the slice [p*size, min((p+1)*size, total)).  The
    list has at most [2^53] items, so that the division of every valid
    offset is exact. *)
Record serves (ready : Fields → Prop) (flat : list item) (size : Z) : Prop := {
  serves_size : 0 < size;
  serves_total : Z.of_nat (length flat) ≤ Z.of_N maxsize;
  serves_exact : Z.of_nat (length flat) ≤ 2 ^ 53;
  serves_page_size : ∀ s, ready s → page_size P s = Ok size;
  serves_total_size : ∀ s, ready s →
    total_size P s = Ok (Scalar (PyInt (Z.of_nat (length flat))));
  serves_get_page : ∀ page s, ready s → 0 ≤ page →
    page * size < Z.of_nat (length flat) →
    fst (get_page P page s) = Ok (slice flat size page)
    ∧ ready (snd (get_page P page s))
}.

(** The cache holds only pages of the flat list. *)
Definition pages_of (flat : list item) (size : Z) (c : gmap Z (list item)) : Prop :=
  ∀ page items, c !! page = Some items → items = slice flat size page.

(** The number of pages that hold the first [count] items. *)
Definition page_count (count size : Z) : Z := (count + size - 1) / size.

(** The record of fetches in which the pages [0 .. count-1] were each
    asked for once, in order, and returned. *)
Definition fetched_in_order (count : Z) : list (Z * bool) :=
  (λ page, (page, true)) <$> seqZ 0 count.

(** What [next] does to the cursor. *)
Definition cursor_after_next (st : instance) : Z :=
  match total_size P (fields st) with
  | Ok v =>
      match as_int v with
      | Some n => if decide (n ≤ index st) then index st else index st + 1
      | None => index st
      end
  | Raise _ => index st
  end.

End PagedIterator.

Arguments PageSource : clear implicits.
Arguments instance : clear implicits.
Arguments conforming_size {item Fields maxsize P ready total size} _.
Arguments conforming_total {item Fields maxsize P ready total size} _.
Arguments conforming_exact {item Fields maxsize P ready total size} _.
Arguments conforming_page_size {item Fields maxsize P ready total size} _ s _.
Arguments conforming_total_size {item Fields maxsize P ready total size} _ s _.
Arguments conforming_get_page {item Fields maxsize P ready total size} _ page s _ _ _.
Arguments serves_size {item Fields maxsize P ready flat size} _.
Arguments serves_total {item Fields maxsize P ready flat size} _.
Arguments serves_exact {item Fields maxsize P ready flat size} _.
Arguments serves_page_size {item Fields maxsize P ready flat size} _ s _.
Arguments serves_total_size {item Fields maxsize P ready flat size} _ s _.
Arguments serves_get_page {item Fields maxsize P ready flat size} _ page s _ _ _.

(** ** The page source of the test suite

    [PagedIterator1] of [test_pagediterator.py]: three pages of size 3
    holding 8 items.  Its attributes [_total_size] and [_page_size] exist
    only once [fetch_page] has run, which the constructor does. *)
Module PagedIterator1.

Record attrs : Type := {
  _total_size : option Z;
  _page_size : option Z
}.

Definition pages : list (list Z) := [[1; 2; 3]; [4; 5; 6]; [7; 8]].

Definition attribute (name : string) (a : option Z) : result Z :=
  match a with
  | Some z => Ok z
  | None => Raise (AttributeError name)
  end.

Definition fetch_page (page_number : Z) (s : attrs) : result (list Z) * attrs :=
  (list_getitem pages page_number,
   {| _total_size := Some 8; _page_size := Some 3 |}).

Definition source : PageSource Z attrs := {|
  page_size := λ s, attribute "_page_size" (_page_size s);
  total_size := λ s,
    match attribute "_total_size" (_total_size s) with
    | Ok z => Ok (Scalar (PyInt z))
    | Raise e => Raise e
    end;
  get_page := fetch_page
|}.

(** [PagedIterator1()]: [PagedIterator.__init__] and then
    [self.fetch_page(0)], whose result is dropped. *)
Definition new : instance Z attrs :=
  __init__ (snd (fetch_page 0 {| _total_size := None; _page_size := None |})).

(** The attributes once the constructor has run, and the sequence the
    three pages spell. *)
Definition ready (s : attrs) : Prop :=
  s = {| _total_size := Some 8; _page_size := Some 3 |}.

Definition flat : list Z := [1; 2; 3; 4; 5; 6; 7; 8].

End PagedIterator1.

(** ** A page source with a transient failure

    Two pages of two items.  The attribute counts the calls of
    [get_page]; page 1 cannot be read before the third call, as a
    connection that is up only later. *)
Module Flaky.

Definition pages : list (list Z) := [[10; 20]; [30; 40]].

Definition fetch (page_number : Z) (calls : nat) : result (list Z) * nat :=
  (if decide (page_number = 1 ∧ (calls < 2)%nat)
   then Raise (OtherError "IOError" "connection reset")
   else list_getitem pages page_number,
   S calls).

Definition source : PageSource Z nat := {|
  page_size := λ _, Ok 2;
  total_size := λ _, Ok (Scalar (PyInt 4));
  get_page := fetch
|}.

(** The instance after [it[0]]: page 0 is cached, one call was made. *)
Definition warm : instance Z nat :=
  run 9223372036854775807 source [CallGetitem (Scalar (PyInt 0))] (__init__ 0%nat).

(** The instance two items into a loop: the cursor is at 2. *)
Definition midway : instance Z nat :=
  run 9223372036854775807 source [CallIter; CallNext; CallNext] (__init__ 0%nat).

End Flaky.

(** ** A stand-in page source

    The members return what they are told to, whatever the page asked
    for, as the [MagicMock(return_value=...)] that the test suite puts in
    place of [get_page]. *)
Module Mock.

Definition source (size : result Z) (total : result pyobj)
    (page : result (list Z)) : PageSource Z () := {|
  page_size := λ _, size;
  total_size := λ _, total;
  get_page := λ _ s, (page, s)
|}.

Definition new : instance Z () := __init__ ().

End Mock.

(** ** A page source of numbered pages

    Pages of one item: page [p] holds the number [p], so that an item
    read tells the page it was read from. *)
Module Numbered.

Definition source (total : Z) : PageSource Z () := {|
  page_size := λ _, Ok 1;
  total_size := λ _, Ok (Scalar (PyInt total));
  get_page := λ page_number s, (Ok [page_number], s)
|}.

End Numbered.

(** [sys.maxsize] of a 64-bit interpreter, for the examples. *)
Definition maxsize64 : N := 9223372036854775807.

(** * Properties *)

(** ** The division of line 160 *)

Lemma binade_ge a b : 0 < b ≤ a → 0 ≤ binade a b ∧ 2 ^ binade a b * b ≤ a.
Proof.
  intros [Hb Hab]. unfold binade. rewrite decide_True by done.
  assert (0 < a / b) as Hn by (apply Z.div_str_pos; lia).
  split; [apply Z.log2_nonneg|].
  destruct (Z.log2_spec (a / b) Hn) as [Hlo _].
  pose proof (Z.mul_div_le a b Hb). nia.
Qed.

Lemma binade_lt a b : 0 < a < b → binade a b ≤ -1.
Proof.
  intros [Ha Hab]. unfold binade. rewrite decide_False by lia.
  assert (1 < (b + a - 1) / a) as Hm.
  { assert (2 ≤ (b + a - 1) / a) by (apply Z.div_le_lower_bound; lia). lia. }
  pose proof (Z.log2_up_pos _ Hm). lia.
Qed.

Lemma round_trunc_exact a b c q' :
  0 ≤ a → 0 < b → 0 < c → b < 2 * c →
  q' = a * c / b ∨ (q' = a * c / b + 1 ∧ b ≤ 2 * ((a * c) mod b)) →
  q' / c = a / b.
Proof.
  intros Ha Hb Hc Hbc Hq.
  pose proof (Z.div_mod a b ltac:(lia)) as Hab.
  pose proof (Z.mod_pos_bound a b Hb) as Hr0.
  pose proof (Z.div_mod (a * c) b ltac:(lia)) as Hacb.
  pose proof (Z.mod_pos_bound (a * c) b Hb) as Hr.
  set (n := a / b) in *. set (r0 := a mod b) in *.
  set (q := a * c / b) in *. set (r := (a * c) mod b) in *.
  assert (0 ≤ n) as Hn by (apply Z.div_pos; lia).
  assert (n * c ≤ q) as Hlo.
  { apply Z.div_le_lower_bound; [done|]. nia. }
  assert (q < (n + 1) * c) as Hhi.
  { apply Z.div_lt_upper_bound; [done|]. nia. }
  assert (n * c ≤ q' < (n + 1) * c) as Hq'.
  { destruct Hq as [->|[-> Hround]]; [lia|]. split; [lia|].
    destruct (decide (q + 1 = (n + 1) * c)) as [Heq|]; [|lia].
    exfalso.
    assert (c ≤ c * (b - r0)) by nia.
    assert (r = b - c * (b - r0)) by nia.
    lia. }
  symmetry. apply Z.div_unique with (r := q' - n * c); lia.
Qed.

Lemma round_trunc_small a b c q' :
  0 ≤ a < b → a < c →
  q' = a * c / b ∨ (q' = a * c / b + 1 ∧ b ≤ 2 * ((a * c) mod b)) →
  q' / c = 0.
Proof.
  intros [Ha Hab] Hc Hq.
  pose proof (Z.div_mod (a * c) b ltac:(lia)) as Hacb.
  pose proof (Z.mod_pos_bound (a * c) b ltac:(lia)) as Hr.
  set (q := a * c / b) in *. set (r := (a * c) mod b) in *.
  assert (0 ≤ q) as Hq0 by (apply Z.div_pos; nia).
  assert (q < c) as Hqc by (apply Z.div_lt_upper_bound; nia).
  apply Z.div_small.
  destruct Hq as [->|[-> Hround]]; [lia|]. split; [lia|].
  destruct (decide (q + 1 = c)) as [Heq|]; [|lia].
  exfalso.
  assert (b ≤ c) by nia.
  assert (r ≤ b - c) by nia.
  lia.
Qed.

Lemma nearest_double_inv a b m e :
  nearest_double a b = (m, e) →
  e = Z.max (binade a b - 52) (-1074)
  ∧ let num := a * 2 ^ Z.max (- e) 0 in
    let den := b * 2 ^ Z.max e 0 in
    m = num / den ∨ (m = num / den + 1 ∧ den ≤ 2 * (num mod den)).
Proof.
  unfold nearest_double. intros [= Hm He]. rewrite He in Hm.
  split; [done|]. case_decide; [right|by left]. split; [done|]. lia.
Qed.

Lemma int_quotient_exact a b :
  0 ≤ a < 2 ^ 53 → 0 < b → int_quotient a b = Ok (a / b).
Proof.
  intros [Ha Ha53] Hb. unfold int_quotient.
  rewrite decide_False by lia.
  destruct (decide (a = 0)) as [->|Hnz]; [by rewrite Z.div_0_l by lia|].
  rewrite (Z.abs_eq a), (Z.abs_eq b) by lia.
  rewrite (Z.sgn_pos a), (Z.sgn_pos b) by lia.
  destruct (nearest_double a b) as [m e] eqn:Hnd.
  apply nearest_double_inv in Hnd as [He Hm]. unfold int_of_double.
  destruct (decide (b ≤ a)) as [Hba|Hab].
  - destruct (binade_ge a b ltac:(lia)) as [Hk0 Hk].
    set (k := binade a b) in *.
    assert (k ≤ 52) as Hk52.
    { apply Z.lt_succ_r. apply (Z.pow_lt_mono_r_iff 2); [lia|lia|].
      assert (0 < 2 ^ k) by (apply Z.pow_pos_nonneg; lia).
      change (Z.succ 52) with 53. nia. }
    assert (e = k - 52) as -> by lia.
    replace (Z.max (- (k - 52)) 0) with (52 - k) in Hm by lia.
    replace (Z.max (k - 52) 0) with 0 in Hm by lia.
    rewrite Z.pow_0_r, Z.mul_1_r in Hm. simpl in Hm.
    set (c := 2 ^ (52 - k)) in *.
    assert (0 < c) as Hc by (apply Z.pow_pos_nonneg; lia).
    assert (2 ^ k * c = 2 ^ 52) as Hkc.
    { unfold c. rewrite <- Z.pow_add_r by lia. f_equal. lia. }
    assert (m / c = a / b) as Hmc
      by (apply round_trunc_exact; try lia; nia).
    assert (m ≤ a * c + 1) as Hmle.
    { assert (a * c / b ≤ a * c) by (apply Z.div_le_upper_bound; nia). lia. }
    destruct (decide (0 ≤ k - 52)) as [Hk'|Hk'].
    + assert (k = 52) as Hk52' by lia.
      assert (c = 1) as Hc1 by (unfold c; by rewrite Hk52').
      replace (k - 52) with 0 by lia. rewrite Z.pow_0_r, Z.mul_1_r.
      rewrite Hc1, Z.div_1_r in Hmc.
      rewrite decide_False; [by rewrite Hmc, Z.mul_1_l|].
      intros [_ Hbig].
      assert (2 ^ 53 < 2 ^ 1024) by (by apply Z.pow_lt_mono_r).
      lia.
    + rewrite decide_False by lia.
      replace (- (k - 52)) with (52 - k) by lia. fold c.
      by rewrite Hmc, Z.mul_1_l.
  - pose proof (binade_lt a b ltac:(lia)) as Hk.
    assert (-1074 ≤ e ≤ -53) as Hr by lia.
    replace (Z.max (- e) 0) with (- e) in Hm by lia.
    replace (Z.max e 0) with 0 in Hm by lia.
    rewrite Z.pow_0_r, Z.mul_1_r in Hm. simpl in Hm.
    set (c := 2 ^ (- e)) in *.
    assert (2 ^ 53 ≤ c) as Hc by (apply Z.pow_le_mono_r; lia).
    assert (m / c = 0) as Hmc
      by (apply (round_trunc_small a b); lia).
    rewrite !decide_False by lia.
    rewrite Hmc. by rewrite Z.div_small by lia.
Qed.

#[global] Arguments int_quotient : simpl never.

Lemma int_quotient_zero a : int_quotient a 0 = Raise ZeroDivisionError.
Proof. done. Qed.

Lemma int_quotient_Ok a b page : int_quotient a b = Ok page → b ≠ 0.
Proof. unfold int_quotient. by case_decide. Qed.

(** What the rounding does past 53 bits and to a negative divisor:
    [int((2**53 + 1) / 1)], [int((2**53 + 3) / 1)], [int(1 / -3)],
    [int(-7 / 2)] and [int(2**1024 / 1)]. *)
Example int_quotient_rounds :
  int_quotient (2 ^ 53 + 1) 1 = Ok (2 ^ 53)
  ∧ int_quotient (2 ^ 53 + 3) 1 = Ok (2 ^ 53 + 4)
  ∧ int_quotient 1 (-3) = Ok 0
  ∧ int_quotient (-7) 2 = Ok (-3)
  ∧ int_quotient (2 ^ 1024) 1 = Raise OverflowError.
Proof. by vm_compute. Qed.

(** Past [2^53] items the class reads another page than the one the
    index falls on: over numbered one-item pages, [it[2**53 + 1]] is the
    item of page [2^53] and [it[2**53 + 3]] that of page [2^53 + 4].
    This is why the page sources of the theorems below hold at most
    [2^53] items. *)
Example getitem_past_exact_range :
  let it := Numbered.source (2 ^ 53 + 5) in
  fst (__getitem__ maxsize64 it (PyInt (2 ^ 53 + 1)) Mock.new) = Ok (2 ^ 53)
  ∧ fst (__getitem__ maxsize64 it (PyInt (2 ^ 53 + 3)) Mock.new)
    = Ok (2 ^ 53 + 4).
Proof. by vm_compute. Qed.

Lemma list_getitem_lookup {A} (l : list A) (i : Z) (x : A) :
  0 ≤ i → l !! Z.to_nat i = Some x → list_getitem l i = Ok x.
Proof.
  intros Hi Hx. unfold list_getitem.
  destruct (decide (i < 0)) as [|_]; [lia|].
  destruct (decide (i < 0)) as [|_]; [lia|]. by rewrite Hx.
Qed.

(** Opening a method down to the state it is run on. *)
Ltac unfold_M :=
  unfold mbind, mret, M_bind, M_ret, raise, lift, get, property,
    set_index, set_cached_pages.
Ltac open_len := unfold len, __len__; unfold_M.
Ltac open_contains := unfold __contains__; unfold_M.
Ltac open_getitem := unfold __getitem__; unfold_M.
Ltac open_next := unfold next; unfold_M.
Ltac open_run := unfold run.
Ltac open_cursor := unfold cursor_after_next.
Ltac open_slice := unfold slice.
Ltac open_traverse := unfold traverse, __iter__; unfold_M.

Section Properties.

Context {item Fields : Type}.
Variable maxsize : N.
Variable P : PageSource item Fields.

Abbreviation instance := (instance item Fields).
Abbreviation len := (len maxsize P).
Abbreviation __contains__ := (__contains__ maxsize P).
Abbreviation __getitem__ := (__getitem__ maxsize P).
Abbreviation next := (next maxsize P).
Abbreviation for_loop := (for_loop maxsize P).
Abbreviation traverse := (traverse maxsize P).
Abbreviation exec := (exec maxsize P).
Abbreviation run := (run maxsize P).
Abbreviation in_bounds := (in_bounds maxsize P).
Abbreviation fetch_step := (fetch_step maxsize P).
Abbreviation with_index := (@with_index item Fields).
Abbreviation returned_cached := (@returned_cached item Fields).
Abbreviation conforming := (conforming maxsize P).
Abbreviation serves := (serves maxsize P).
Abbreviation slice := (@slice item).
Abbreviation pages_of := (@pages_of item).

Implicit Types (st : instance) (offset : pyobj) (o n size page : Z).

(** *** [len] and [__contains__] read the instance and leave it alone *)

Lemma len_state st : snd (len st) = st.
Proof.
  open_len.
  destruct (total_size P (fields st)) as [v|]; [|done].
  destruct (as_int v) as [n|]; [|done].
  by repeat case_decide.
Qed.

Lemma len_Ok st v n :
  total_size P (fields st) = Ok v → as_int v = Some n →
  0 ≤ n ≤ Z.of_N maxsize → len st = (Ok n, st).
Proof.
  intros Hv Hn Hr. open_len.
  rewrite Hv, Hn. repeat case_decide; (lia || done).
Qed.

Lemma len_Ok_inv st st' n :
  len st = (Ok n, st') →
  ∃ v, total_size P (fields st) = Ok v ∧ as_int v = Some n
       ∧ 0 ≤ n ≤ Z.of_N maxsize.
Proof.
  open_len.
  destruct (total_size P (fields st)) as [v|]; [|done].
  destruct (as_int v) as [m|] eqn:Hm; [|done].
  repeat case_decide; try done.
  intros [= -> _]. exists v. repeat split; (done || lia).
Qed.

Lemma contains_state offset st : snd (__contains__ offset st) = st.
Proof.
  open_contains.
  destruct (as_int offset) as [o|]; [|done].
  case_decide; [|done].
  pose proof (len_state st) as Hs.
  destruct (len st) as [[n|e] st']; simpl in *; by subst.
Qed.

Lemma contains_in_bounds offset o st :
  as_int offset = Some o → in_bounds st o →
  __contains__ offset st = (Ok true, st).
Proof.
  intros Ho (n & Hlen & Hr). open_contains.
  rewrite Ho. case_decide; [|lia]. rewrite Hlen.
  by rewrite bool_decide_eq_true_2 by lia.
Qed.

Lemma contains_true_inv offset st st' :
  __contains__ offset st = (Ok true, st') →
  ∃ o, as_int offset = Some o ∧ in_bounds st o.
Proof.
  open_contains.
  destruct (as_int offset) as [o|]; [|done].
  case_decide; [|done].
  pose proof (len_state st) as Hs.
  destruct (len st) as [[n|e] st1] eqn:Hlen; [|done]. simpl in Hs. subst st1.
  intros [= Hb%bool_decide_eq_true _]. exists o. split; [done|].
  exists n. split; [done|lia].
Qed.

(** *** [__getitem__], case by case *)

Lemma getitem_not_int offset st :
  as_int offset = None →
  __getitem__ offset st =
    (match format_s "Index must be a positive integer: " offset with
     | Ok msg => Raise (ValueError msg)
     | Raise e => Raise e
     end, st).
Proof.
  intros Ho. open_getitem. rewrite Ho.
  by destruct (format_s _ offset).
Qed.

Lemma getitem_outside (a : scalar) o st :
  as_int a = Some o →
  __contains__ a st = (Ok false, st) →
  __getitem__ a st = (Raise (IndexError ("Index out of bounds: " +:+ str a)), st).
Proof.
  intros Ho Hc. open_getitem. by rewrite Ho, Hc.
Qed.

Lemma getitem_hit offset o size page items st :
  as_int offset = Some o → in_bounds st o →
  page_size P (fields st) = Ok size → int_quotient o size = Ok page →
  cached_pages st !! page = Some items →
  __getitem__ offset st = (list_getitem items (o mod size), st).
Proof.
  intros Ho Hin Hsize Hq Hpage.
  pose proof (int_quotient_Ok _ _ _ Hq) as Hnz.
  open_getitem.
  rewrite Ho, (contains_in_bounds _ _ _ Ho Hin). simpl.
  rewrite Hsize, Hq. unfold py_mod. simpl.
  rewrite Hpage. rewrite decide_True by eauto.
  rewrite Hpage. simpl. rewrite Hsize.
  by destruct (decide (size = 0)).
Qed.

Lemma getitem_miss_raise offset o size page e st :
  as_int offset = Some o → in_bounds st o →
  page_size P (fields st) = Ok size → int_quotient o size = Ok page →
  cached_pages st !! page = None →
  fst (get_page P page (fields st)) = Raise e →
  __getitem__ offset st =
    (Raise e,
     {| cached_pages := cached_pages st; index := index st;
        fields := snd (get_page P page (fields st));
        fetched := fetched st ++ [(page, false)] |}).
Proof.
  intros Ho Hin Hsize Hq Hpage Hget.
  open_getitem.
  rewrite Ho, (contains_in_bounds _ _ _ Ho Hin). simpl.
  rewrite Hsize, Hq. simpl.
  rewrite Hpage. rewrite decide_False by (by intros [? ?]).
  unfold call_get_page.
  destruct (get_page P page (fields st)) as [r s']. simpl in *.
  by subst r.
Qed.

Lemma getitem_miss_ok offset o size page items st :
  as_int offset = Some o → in_bounds st o →
  page_size P (fields st) = Ok size → int_quotient o size = Ok page →
  cached_pages st !! page = None →
  fst (get_page P page (fields st)) = Ok items →
  __getitem__ offset st =
    (match page_size P (snd (get_page P page (fields st))) with
     | Ok size' =>
         match py_mod o size' with
         | Ok i => list_getitem items i
         | Raise e => Raise e
         end
     | Raise e => Raise e
     end,
     {| cached_pages := <[page := items]> (cached_pages st);
        index := index st;
        fields := snd (get_page P page (fields st));
        fetched := fetched st ++ [(page, true)] |}).
Proof.
  intros Ho Hin Hsize Hq Hpage Hget.
  open_getitem.
  rewrite Ho, (contains_in_bounds _ _ _ Ho Hin). simpl.
  rewrite Hsize, Hq. simpl.
  rewrite Hpage. rewrite decide_False by (by intros [? ?]).
  unfold call_get_page.
  destruct (get_page P page (fields st)) as [r s']. simpl in *.
  subst r. simpl. rewrite lookup_insert_eq. simpl.
  destruct (page_size P s') as [size'|]; [|done].
  by destruct (py_mod o size').
Qed.

(** A valid index whose page cannot be computed: the division fails
    and nothing else happens. *)
Lemma getitem_no_page offset o size e st :
  as_int offset = Some o → in_bounds st o →
  page_size P (fields st) = Ok size → int_quotient o size = Raise e →
  __getitem__ offset st = (Raise e, st).
Proof.
  intros Ho Hin Hsize Hq. open_getitem.
  rewrite Ho, (contains_in_bounds _ _ _ Ho Hin). simpl.
  by rewrite Hsize, Hq.
Qed.

(** Whatever the index, [__getitem__] leaves the cursor alone and makes
    at most one fetch, of a page that is not cached. *)
Lemma getitem_fetch_step offset st :
  fetch_step st (snd (__getitem__ offset st))
  ∧ index (snd (__getitem__ offset st)) = index st.
Proof.
  destruct (as_int offset) as [o|] eqn:Ho.
  2:{ rewrite getitem_not_int by done. split; [by apply no_fetch|done]. }
  assert (∃ a : scalar, offset = a) as [a ->].
  { destruct offset as [a|]; [by exists a|done]. }
  pose proof (contains_state a st) as Hs.
  destruct (__contains__ a st) as [[[]|e] st1] eqn:Hc; simpl in Hs; subst st1.
  - destruct (contains_true_inv _ _ _ Hc) as (o' & Ho' & Hin).
    assert (o' = o) as -> by congruence.
    destruct (page_size P (fields st)) as [size|e] eqn:Hsize.
    2:{ open_getitem. rewrite Ho, Hc. simpl.
        rewrite Hsize. split; [by apply no_fetch|done]. }
    destruct (int_quotient o size) as [page|e] eqn:Hq.
    2:{ rewrite (getitem_no_page _ _ _ _ _ Ho Hin Hsize Hq).
        split; [by apply no_fetch|done]. }
    destruct (cached_pages st !! page) as [items|] eqn:Hpage.
    { rewrite (getitem_hit _ _ _ _ _ _ Ho Hin Hsize Hq Hpage).
      split; [by apply no_fetch|done]. }
    destruct (fst (get_page P page (fields st))) as [items|e] eqn:Hget.
    + rewrite (getitem_miss_ok _ _ _ _ _ _ Ho Hin Hsize Hq Hpage Hget).
      split; [|done]. eapply one_fetch; eauto.
    + rewrite (getitem_miss_raise _ _ _ _ _ _ Ho Hin Hsize Hq Hpage Hget).
      split; [|done]. eapply one_fetch; eauto.
  - rewrite (getitem_outside _ _ _ Ho Hc). split; [by apply no_fetch|done].
  - open_getitem. rewrite Ho, Hc.
    split; [by apply no_fetch|done].
Qed.

(** *** [next] *)

Lemma next_unfold st :
  next st =
    match total_size P (fields st) with
    | Raise e => (Raise e, st)
    | Ok v =>
        match as_int v with
        | None => (Raise AssertionError, st)
        | Some n =>
            if decide (n ≤ index st) then (Raise StopIteration, st)
            else __getitem__ (PyInt (index st)) (with_index (index st + 1) st)
        end
    end.
Proof.
  open_next.
  destruct (total_size P (fields st)) as [v|]; [|done].
  destruct (as_int v) as [n|]; [|done]. simpl.
  case_decide; [done|]. simpl. by rewrite Z.add_simpl_r.
Qed.

Lemma in_bounds_fields st1 st2 o :
  fields st1 = fields st2 → in_bounds st1 o → in_bounds st2 o.
Proof.
  intros Hf (n & Hlen & Hr).
  destruct (len_Ok_inv _ _ _ Hlen) as (v & Hv & Hn & Hmax).
  exists n. split; [|done]. eapply len_Ok; [|done..]. by rewrite <- Hf.
Qed.

Lemma fetch_step_from st1 st2 st' :
  cached_pages st1 = cached_pages st2 → fields st1 = fields st2 →
  fetched st1 = fetched st2 →
  fetch_step st1 st' → fetch_step st2 st'.
Proof.
  intros Hc Hf Hl [Hc' Hf' Hl'|o size page r Hin Hsize Hq Hpage Hr Hc' Hf' Hl'].
  - apply no_fetch; congruence.
  - eapply one_fetch with (o := o) (size := size) (page := page) (r := r);
      rewrite <- ?Hc, <- ?Hf, <- ?Hl; try done.
    by eapply in_bounds_fields.
Qed.

Lemma next_fetch_step st : fetch_step st (snd (next st)).
Proof.
  rewrite next_unfold.
  destruct (total_size P (fields st)) as [v|]; [|by apply no_fetch].
  destruct (as_int v) as [n|]; [|by apply no_fetch].
  case_decide; [by apply no_fetch|].
  eapply fetch_step_from; [..|apply getitem_fetch_step]; done.
Qed.

(** Every call of a client is such a step. *)
Lemma exec_fetch_step (c : call) st : fetch_step st (exec c st).
Proof.
  destruct c; simpl.
  - rewrite len_state. by apply no_fetch.
  - rewrite contains_state. by apply no_fetch.
  - apply getitem_fetch_step.
  - by apply no_fetch.
  - by apply no_fetch.
  - by apply no_fetch.
  - apply next_fetch_step.
Qed.

(** *** Read-only: [__setitem__] and [__delitem__] *)

(** C7: for every key, valid or not, and every value, [__setitem__] and
    [__delitem__] raise [RuntimeError] (the Unsupported error) and hand
    back the instance as it was: cache, cursor, attributes and record of
    fetches are those of before. *)
Theorem setitem_delitem_rejected {V : Type} (key : pyobj) (value : V) st :
  __setitem__ key value st
    = (Raise (RuntimeError "Setting values is not allowed."), st)
  ∧ __delitem__ key st
    = (Raise (RuntimeError "Unsetting values is not allowed."), st).
Proof. split; reflexivity. Qed.

(** *** Membership *)

Lemma contains_decides offset o n st :
  as_int offset = Some o →
  fst (len st) = Ok n →
  __contains__ offset st = (Ok (bool_decide (0 ≤ o < n)), st).
Proof.
  intros Ho Hlen.
  pose proof (len_state st) as Hs.
  destruct (len st) as [r st1] eqn:Hl. simpl in *. subst r st1.
  open_contains. rewrite Ho.
  destruct (decide (0 ≤ o)) as [Hpos|Hneg].
  - rewrite Hl. do 2 f_equal. apply bool_decide_ext. lia.
  - by rewrite bool_decide_eq_false_2 by lia.
Qed.

(** C8: for an integer [offset], when [len(self)] is [n], [offset in self]
    returns [true] exactly when [0 <= offset < n]; the instance it hands
    back is the one it was given, so nothing is fetched and neither the
    cache nor the cursor moves. *)
Theorem contains_iff_in_range offset o n st :
  as_int offset = Some o →
  fst (len st) = Ok n →
  ∃ b : bool, __contains__ offset st = (Ok b, st) ∧ (b = true ↔ 0 ≤ o < n).
Proof.
  intros Ho Hlen. eexists. split; [by apply contains_decides|].
  apply bool_decide_eq_true.
Qed.

(** C9 (as the code has it): for an [offset] that is not an integer,
    [offset in self] does not return: the assertion on its first line
    fails with [AssertionError], and the instance is untouched. *)
Theorem contains_asserts_int offset st :
  as_int offset = None →
  __contains__ offset st = (Raise AssertionError, st).
Proof.
  intros Ho. open_contains. by rewrite Ho.
Qed.

(** *** Rejected indexes *)

(** An index that is not an integer, and not a tuple, is rejected with
    [ValueError] before anything else is looked at. *)
Lemma getitem_rejects_non_int (a : scalar) st :
  as_int a = None →
  __getitem__ a st =
    (Raise (ValueError ("Index must be a positive integer: " +:+ str a)), st).
Proof. intros Ho. by rewrite getitem_not_int. Qed.

(** So is a tuple of one component, which [%] takes for the argument. *)
Lemma getitem_rejects_singleton (a : scalar) st :
  __getitem__ (PyTuple [a]) st =
    (Raise (ValueError ("Index must be a positive integer: " +:+ str a)), st).
Proof. by rewrite getitem_not_int. Qed.

(** Any other tuple makes the formatting of the message itself fail:
    the [ValueError] is never built and [TypeError] leaves instead. *)
Lemma getitem_tuple (items : list scalar) st :
  length items ≠ 1%nat →
  __getitem__ (PyTuple items) st = (Raise TypeError, st).
Proof.
  intros Hlen. rewrite getitem_not_int by done.
  by destruct items as [|a [|b items]].
Qed.

(** An integer outside [0 <= o < len(self)] is rejected with
    [IndexError], and nothing is fetched. *)
Lemma getitem_rejects_out_of_bounds (a : scalar) o n st :
  as_int a = Some o →
  fst (len st) = Ok n →
  o < 0 ∨ n ≤ o →
  __getitem__ a st =
    (Raise (IndexError ("Index out of bounds: " +:+ str a)), st).
Proof.
  intros Ho Hlen Hout.
  apply getitem_outside with (o := o); [done|].
  rewrite (contains_decides _ _ _ _ Ho Hlen).
  by rewrite bool_decide_eq_false_2 by lia.
Qed.

(** *** A fetch that fails *)

(** C5: when [get_page] raises [e] during [self[offset]] (the index is
    valid and the page that line 160 computes for it is not cached), [e]
    itself leaves [__getitem__]; the cache and the cursor are those of
    before, so nothing is stored for the page; and the next valid access
    to that page calls [get_page] for it again. *)
Theorem fetch_failure_propagates offset o size page e st :
  as_int offset = Some o → in_bounds st o →
  page_size P (fields st) = Ok size → int_quotient o size = Ok page →
  cached_pages st !! page = None →
  fst (get_page P page (fields st)) = Raise e →
  let st' := snd (__getitem__ offset st) in
  fst (__getitem__ offset st) = Raise e
  ∧ cached_pages st' = cached_pages st
  ∧ index st' = index st
  ∧ fetched st' = fetched st ++ [(page, false)]
  ∧ ∀ offset2 o2,
      as_int offset2 = Some o2 → in_bounds st' o2 →
      page_size P (fields st') = Ok size → int_quotient o2 size = Ok page →
      ∃ outcome : bool,
        fetched (snd (__getitem__ offset2 st'))
          = fetched st' ++ [(page, outcome)].
Proof.
  intros Ho Hin Hsize Hq Hpage Hget.
  rewrite (getitem_miss_raise _ _ _ _ _ _ Ho Hin Hsize Hq Hpage Hget). simpl.
  repeat split.
  intros offset2 o2 Ho2 Hin2 Hsize2 Hq2.
  set (st' := {| cached_pages := cached_pages st |}) in *.
  assert (cached_pages st' !! page = None) as Hpage2 by done.
  destruct (fst (get_page P page (fields st'))) as [items|e2] eqn:Hget2.
  - rewrite (getitem_miss_ok _ _ _ _ _ _ Ho2 Hin2 Hsize2 Hq2 Hpage2 Hget2).
    by exists true.
  - rewrite (getitem_miss_raise _ _ _ _ _ _ Ho2 Hin2 Hsize2 Hq2 Hpage2 Hget2).
    by exists false.
Qed.

(** C10: [next] moves the cursor before it reads.  When [get_page]
    raises [e] during [next()] (for the page that line 160 computes for
    the cursor, which is not cached), [e] leaves [next] with the cursor
    already one past the index whose fetch failed and the cache as
    before; the following [next()] then stops if that was the last
    index, and reads the index after the failed one otherwise. *)
Theorem next_advances_before_access v n size page e st :
  total_size P (fields st) = Ok v → as_int v = Some n →
  n ≤ Z.of_N maxsize → 0 ≤ index st < n →
  page_size P (fields st) = Ok size →
  int_quotient (index st) size = Ok page →
  cached_pages st !! page = None →
  fst (get_page P page (fields st)) = Raise e →
  let st' := snd (next st) in
  fst (next st) = Raise e
  ∧ index st' = index st + 1
  ∧ cached_pages st' = cached_pages st
  ∧ ∀ v' n',
      total_size P (fields st') = Ok v' → as_int v' = Some n' →
      next st' =
        if decide (n' ≤ index st + 1) then (Raise StopIteration, st')
        else __getitem__ (PyInt (index st + 1)) (with_index (index st + 2) st').
Proof.
  intros Hv Hn Hmax Hi Hsize Hq Hpage Hget.
  assert (in_bounds (with_index (index st + 1) st) (index st)) as Hin.
  { exists n. split; [|lia]. eapply len_Ok; [exact Hv|done|lia]. }
  rewrite next_unfold, Hv, Hn. rewrite decide_False by lia.
  rewrite (getitem_miss_raise (PyInt (index st)) (index st) size page e);
    [|done..].
  simpl. repeat split.
  intros v' n' Hv' Hn'. rewrite next_unfold. simpl. rewrite Hv', Hn'.
  case_decide; [done|]. by replace (index st + 1 + 1) with (index st + 2) by lia.
Qed.

(** *** The cache only grows *)

Lemma fetch_step_cache_mono st st' :
  fetch_step st st' → cached_pages st ⊆ cached_pages st'.
Proof.
  intros [Hc _ _|o size page [items|e] _ _ _ Hpage _ Hc _ _]; rewrite Hc;
    [done| |done].
  by apply insert_subseteq.
Qed.

Lemma run_snoc (cs : list call) (c : call) st :
  run (cs ++ [c]) st = exec c (run cs st).
Proof. open_run. by rewrite foldl_app. Qed.

Lemma run_cache_mono (cs : list call) st :
  cached_pages st ⊆ cached_pages (run cs st).
Proof.
  induction cs as [|c cs IH] using rev_ind; [done|].
  rewrite run_snoc. etrans; [exact IH|].
  apply fetch_step_cache_mono, exec_fetch_step.
Qed.

(** *** The record of fetches *)

Lemma fetched_once_snoc (log : list (Z * bool)) page (ok : bool) :
  fetched_once log →
  (∀ p, (p, true) ∈ log → p ≠ page) →
  fetched_once (log ++ [(page, ok)]).
Proof.
  induction log as [|[p b] rest IH]; simpl; intros Hlog Hnew.
  - split; [|done]. intros _. apply not_elem_of_nil.
  - destruct Hlog as [Hp Hrest]. split.
    + intros ->. rewrite fmap_app, elem_of_app. intros [Hin|Hin].
      * by apply Hp.
      * apply list_elem_of_singleton in Hin. simpl in Hin.
        eapply Hnew; [apply list_elem_of_here|done].
    + apply IH; [done|]. intros q Hq. apply Hnew. by apply list_elem_of_further.
Qed.

Lemma fetched_once_returned (log : list (Z * bool)) :
  fetched_once log → NoDup (filter (λ c, snd c = true) log).*1.
Proof.
  induction log as [|[p b] rest IH]; simpl; intros Hlog; [constructor|].
  destruct Hlog as [Hp Hrest]. rewrite filter_cons. simpl.
  case_decide as Hb; [|by apply IH]. simpl in Hb. subst b. simpl.
  constructor; [|by apply IH].
  intros Hin. apply Hp; [done|].
  apply list_elem_of_fmap in Hin as ([q b] & -> & Hq).
  apply list_elem_of_filter in Hq as [_ Hq].
  apply list_elem_of_fmap. by exists (q, b).
Qed.

Lemma fetch_step_log st st' :
  fetch_step st st' →
  fetched_once (fetched st) ∧ returned_cached st →
  fetched_once (fetched st') ∧ returned_cached st'.
Proof.
  intros [Hc _ Hl|o size page r _ _ _ Hpage Hr Hc _ Hl] [Honce Hcached].
  - unfold returned_cached. by rewrite Hc, Hl.
  - rewrite Hl. split.
    + apply fetched_once_snoc; [done|]. intros p Hp ->.
      apply Hcached in Hp as [items Hp]. congruence.
    + intros p. rewrite Hl, elem_of_app, Hc. intros [Hp|Hp].
      * apply Hcached in Hp as [items Hp]. destruct r; [|by eauto].
        destruct (decide (page = p)) as [<-|Hne].
        -- rewrite lookup_insert_eq. eauto.
        -- rewrite lookup_insert_ne by done. eauto.
      * apply list_elem_of_singleton in Hp. injection Hp as <- Hret.
        destruct r; [|done]. rewrite lookup_insert_eq. eauto.
Qed.

Lemma run_log (cs : list call) st :
  fetched_once (fetched st) ∧ returned_cached st →
  fetched_once (fetched (run cs st)) ∧ returned_cached (run cs st).
Proof.
  intros Hst. induction cs as [|c cs IH] using rev_ind; [done|].
  rewrite run_snoc. eapply fetch_step_log; [apply exec_fetch_step|done].
Qed.

(** *** Reads are stable *)

(** A value [__getitem__] returns is read from the cached page of the
    index. *)
Lemma getitem_Ok_cached offset o size x st st1 :
  as_int offset = Some o →
  __getitem__ offset st = (Ok x, st1) →
  page_size P (fields st) = Ok size →
  page_size P (fields st1) = Ok size →
  ∃ page items, int_quotient o size = Ok page
                ∧ cached_pages st1 !! page = Some items
                ∧ list_getitem items (o mod size) = Ok x.
Proof.
  intros Ho Hcall Hsize Hsize1.
  assert (∃ a : scalar, offset = a) as [a ->].
  { destruct offset as [a|]; [by exists a|done]. }
  pose proof (contains_state a st) as Hs.
  destruct (__contains__ a st) as [[[]|e] st'] eqn:Hc; simpl in Hs; subst st'.
  - destruct (contains_true_inv _ _ _ Hc) as (o' & Ho' & Hin).
    assert (o' = o) as -> by congruence.
    destruct (int_quotient o size) as [page|e] eqn:Hq.
    2:{ by rewrite (getitem_no_page _ _ _ _ _ Ho Hin Hsize Hq) in Hcall. }
    pose proof (int_quotient_Ok _ _ _ Hq) as Hnz.
    exists page.
    destruct (cached_pages st !! page) as [items|] eqn:Hpage.
    { rewrite (getitem_hit _ _ _ _ _ _ Ho Hin Hsize Hq Hpage) in Hcall.
      injection Hcall as Hx <-. eauto. }
    destruct (fst (get_page P page (fields st))) as [items|e] eqn:Hget.
    + rewrite (getitem_miss_ok _ _ _ _ _ _ Ho Hin Hsize Hq Hpage Hget)
        in Hcall.
      injection Hcall as Hx <-. simpl in *. rewrite Hsize1 in Hx.
      exists items. rewrite lookup_insert_eq. split; [done|]. split; [done|].
      unfold py_mod in Hx. by rewrite decide_False in Hx by done.
    + by rewrite (getitem_miss_raise _ _ _ _ _ _ Ho Hin Hsize Hq Hpage Hget)
        in Hcall.
  - by rewrite (getitem_outside _ _ _ Ho Hc) in Hcall.
  - revert Hcall. open_getitem. by rewrite Ho, Hc.
Qed.

(** C3 (as the code has it): on an instance made by [__init__] and used
    through any calls [cs],
    - once [self[offset]] has returned [x], every later [self[offset]]
      returns [x] again, from the cache and without touching the
      instance, as long as the offset is still within bounds and the page
      size reads the same;
    - [get_page] is never called again for a page once a call for that
      page has returned, so no page is returned twice (a call that raised
      cached nothing and may be followed by another for the same page);
    - later calls only add to the cache: an entry is neither replaced nor
      removed. *)
Theorem reads_stable_fetches_once (s : Fields) (cs : list call) :
  let st := run cs (__init__ s) in
  (∀ offset o size x st1 (cs' : list call),
      as_int offset = Some o →
      __getitem__ offset st = (Ok x, st1) →
      page_size P (fields st) = Ok size →
      page_size P (fields st1) = Ok size →
      page_size P (fields (run cs' st1)) = Ok size →
      in_bounds (run cs' st1) o →
      __getitem__ offset (run cs' st1) = (Ok x, run cs' st1))
  ∧ fetched_once (fetched st)
  ∧ NoDup (pages_returned st)
  ∧ (∀ (cs' : list call) page items,
      cached_pages st !! page = Some items →
      cached_pages (run cs' st) !! page = Some items).
Proof.
  intros st. split; [|split; [|split]].
  - intros offset o size x st1 cs' Ho Hcall Hsize Hsize1 Hsize2 Hin.
    destruct (getitem_Ok_cached _ _ _ _ _ _ Ho Hcall Hsize Hsize1)
      as (page & items & Hq & Hpage & Hx).
    rewrite (getitem_hit offset o size page items); [by rewrite Hx|done..|].
    eapply lookup_weaken; [exact Hpage|apply run_cache_mono].
  - apply run_log. split; [done|]. intros page Hin.
    by apply elem_of_nil in Hin.
  - apply fetched_once_returned, run_log. split; [done|]. intros page Hin.
    by apply elem_of_nil in Hin.
  - intros cs' page items Hpage.
    eapply lookup_weaken; [exact Hpage|apply run_cache_mono].
Qed.

(** *** A conforming page source *)

Section Conforming.

Variable ready : Fields → Prop.
Variables total size : Z.
Hypothesis source_ok : conforming ready total size.

Lemma conforming_in_bounds st o :
  ready (fields st) → 0 ≤ o < total → in_bounds st o.
Proof.
  intros Hready Ho. exists total. split; [|done].
  eapply len_Ok; [by apply source_ok|done|apply source_ok].
Qed.

(** Within a conforming total the division is exact: the page is the
    floor quotient. *)
Lemma conforming_page o :
  0 ≤ o < total → int_quotient o size = Ok (o / size).
Proof.
  intros Ho. apply int_quotient_exact; [|apply source_ok].
  pose proof (conforming_exact source_ok). lia.
Qed.

Lemma page_item_lookup (items : list item) o :
  0 ≤ o < total →
  Z.min size (total - o / size * size) ≤ Z.of_nat (length items) →
  is_Some (items !! Z.to_nat (o mod size)).
Proof.
  intros Ho Hlen. pose proof (conforming_size source_ok) as Hsize.
  apply lookup_lt_is_Some.
  pose proof (Z.mod_pos_bound o size Hsize).
  pose proof (Z.div_mod o size). lia.
Qed.

Lemma cached_item_mono (c c' : gmap Z (list item)) o x :
  c ⊆ c' → cached_item size c o = Some x → cached_item size c' o = Some x.
Proof.
  unfold cached_item. intros Hsub Hx.
  destruct (c !! (o / size)) as [items|] eqn:Hpage; [|done].
  by rewrite (lookup_weaken _ _ _ _ Hpage Hsub).
Qed.

(** A valid read returns, keeps the source ready and the cache filled,
    and changes nothing when the page was cached. *)
Lemma getitem_conforming offset o st :
  ready (fields st) → pages_filled total size (cached_pages st) →
  as_int offset = Some o → 0 ≤ o < total →
  ∃ x st', __getitem__ offset st = (Ok x, st')
    ∧ ready (fields st')
    ∧ pages_filled total size (cached_pages st')
    ∧ index st' = index st
    ∧ cached_item size (cached_pages st') o = Some x
    ∧ cached_pages st ⊆ cached_pages st'
    ∧ (is_Some (cached_pages st !! (o / size)) → st' = st).
Proof.
  intros Hready Hfilled Ho Hr.
  pose proof (conforming_size source_ok) as Hpos.
  pose proof (conforming_in_bounds _ _ Hready Hr) as Hin.
  pose proof (conforming_page_size source_ok _ Hready) as Hsize.
  assert (size ≠ 0) as Hnz by lia.
  pose proof (conforming_page o Hr) as Hq.
  pose proof (Z.mod_pos_bound o size Hpos) as Hmod.
  destruct (cached_pages st !! (o / size)) as [items|] eqn:Hpage.
  - destruct (page_item_lookup items o Hr (Hfilled _ _ Hpage)) as [x Hx].
    exists x, st.
    rewrite (getitem_hit _ _ _ _ _ _ Ho Hin Hsize Hq Hpage).
    rewrite (list_getitem_lookup _ _ x) by (lia || done).
    repeat split; try done.
    unfold cached_item. by rewrite Hpage.
  - destruct (conforming_get_page source_ok (o / size) _ Hready)
      as (items & Hget & Hlen & Hready').
    { apply Z.div_pos; lia. }
    { pose proof (Z.div_mod o size). lia. }
    destruct (page_item_lookup items o Hr Hlen) as [x Hx].
    rewrite (getitem_miss_ok _ _ _ _ _ _ Ho Hin Hsize Hq Hpage Hget).
    rewrite (conforming_page_size source_ok _ Hready').
    unfold py_mod. rewrite decide_False by done.
    rewrite (list_getitem_lookup _ _ x) by (lia || done).
    eexists _, _. split; [done|]. simpl. repeat split; try done.
    + intros page items' Hlook.
      destruct (decide (o / size = page)) as [<-|Hne].
      * rewrite lookup_insert_eq in Hlook. by injection Hlook as <-.
      * rewrite lookup_insert_ne in Hlook by done. by eapply Hfilled.
    + unfold cached_item. by rewrite lookup_insert_eq.
    + by apply insert_subseteq.
Qed.

Lemma with_index_same st : with_index (index st) st = st.
Proof. by destruct st. Qed.

(** The loop from cursor [index st]: it yields the items of the
    remaining offsets and stops normally with the cursor at [total]. *)
Lemma for_loop_conforming (k : nat) :
  ∀ (fuel : nat) (acc : list item) st,
    ready (fields st) → pages_filled total size (cached_pages st) →
    0 ≤ index st → Z.of_nat k = total - index st → (k < fuel)%nat →
    ∃ xs st', for_loop fuel acc st = (Ok (Some (acc ++ xs)), st')
      ∧ ready (fields st')
      ∧ pages_filled total size (cached_pages st')
      ∧ cached_pages st ⊆ cached_pages st'
      ∧ length xs = k
      ∧ (∀ j : nat, (j < k)%nat →
           xs !! j = cached_item size (cached_pages st') (index st + Z.of_nat j))
      ∧ ((∀ o, index st ≤ o < total → is_Some (cached_pages st !! (o / size)))
           → st' = with_index total st).
Proof.
  induction k as [|k IH]; intros fuel acc st Hready Hfilled Hpos Hk Hfuel;
    (destruct fuel as [|fuel]; [lia|]); simpl;
    rewrite next_unfold, (conforming_total_size source_ok _ Hready);
    simpl.
  - rewrite decide_True by lia. exists [], st.
    rewrite app_nil_r. repeat split; try done; [lia|].
    intros _. replace total with (index st) by lia.
    by rewrite with_index_same.
  - rewrite decide_False by lia.
    destruct (getitem_conforming (PyInt (index st)) (index st)
                (with_index (index st + 1) st) Hready Hfilled eq_refl
                ltac:(lia))
      as (x & st1 & Hget & Hready1 & Hfilled1 & Hidx1 & Hx & Hsub1 & Hsame1).
    rewrite Hget. simpl in Hidx1.
    destruct (IH fuel (acc ++ [x]) st1 Hready1 Hfilled1
                ltac:(lia) ltac:(lia) ltac:(lia))
      as (xs & st' & Hloop & Hready' & Hfilled' & Hsub' & Hlen & Hnth & Hsame').
    exists (x :: xs), st'. rewrite Hloop, <- app_assoc. simpl.
    repeat split; try done.
    + by etrans.
    + by rewrite Hlen.
    + intros [|j] Hj; simpl.
      * rewrite Z.add_0_r. symmetry. by eapply cached_item_mono.
      * rewrite Hnth by lia. f_equal. lia.
    + intros Hcov.
      assert (st1 = with_index (index st + 1) st) as ->
        by (apply Hsame1, Hcov; lia).
      rewrite Hsame'; [done|]. intros o Ho. apply Hcov. simpl in Ho. lia.
Qed.

(** The hypotheses on the instance hold from [__init__] on, whatever
    the calls made. *)
Lemma conforming_fetch_step st st' :
  fetch_step st st' →
  ready (fields st) ∧ pages_filled total size (cached_pages st) →
  ready (fields st') ∧ pages_filled total size (cached_pages st').
Proof.
  intros [Hc Hf _|o size' page0 r Hin Hsize Hq Hpage Hr Hc Hf _]
    [Hready Hfilled].
  - by rewrite Hc, Hf.
  - rewrite (conforming_page_size source_ok _ Hready) in Hsize.
    injection Hsize as <-.
    destruct Hin as (n & Hlen & Ho).
    destruct (len_Ok_inv _ _ _ Hlen) as (v & Hv & Hn & _).
    rewrite (conforming_total_size source_ok _ Hready) in Hv.
    injection Hv as <-. injection Hn as <-.
    rewrite (conforming_page o Ho) in Hq. injection Hq as <-.
    pose proof (conforming_size source_ok) as Hpos.
    destruct (conforming_get_page source_ok (o / size) _ Hready)
      as (items & Hget & Hlen' & Hready').
    { apply Z.div_pos; lia. }
    { pose proof (Z.div_mod o size). pose proof (Z.mod_pos_bound o size). lia. }
    rewrite Hf, Hc. split; [done|]. rewrite Hget in Hr. subst r.
    intros page items' Hlook.
    destruct (decide (o / size = page)) as [<-|Hne].
    + rewrite lookup_insert_eq in Hlook. by injection Hlook as <-.
    + rewrite lookup_insert_ne in Hlook by done. by eapply Hfilled.
Qed.

Lemma conforming_run (s : Fields) (cs : list call) :
  ready s →
  ready (fields (run cs (__init__ s)))
  ∧ pages_filled total size (cached_pages (run cs (__init__ s))).
Proof.
  intros Hready. induction cs as [|c cs IH] using rev_ind.
  - split; [done|]. intros page items Hlook. simpl in Hlook.
    by rewrite lookup_empty in Hlook.
  - rewrite run_snoc. eapply conforming_fetch_step; [apply exec_fetch_step|done].
Qed.

Lemma traverse_unfold (fuel : nat) st :
  traverse fuel st = for_loop fuel [] (with_index 0 st).
Proof. by open_traverse. Qed.

(** C2: over a conforming page source (of at most [2^53] items),
    [for x in it] yields [total] items and ends normally; the item yielded at position [i] is the one
    [it[i]] returns.  A second loop on the same instance yields the same
    list: [__iter__] only puts the cursor back to 0 and keeps the cache,
    and the second pass leaves the cache as it was and calls [get_page]
    not once. *)
Theorem iteration_yields_all_twice (fuel : nat) st :
  ready (fields st) → pages_filled total size (cached_pages st) →
  (Z.to_nat total < fuel)%nat →
  ∃ xs st1 st2,
    traverse fuel st = (Ok (Some xs), st1)
    ∧ Z.of_nat (length xs) = total
    ∧ (∀ (i : nat) x, xs !! i = Some x →
         __getitem__ (PyInt (Z.of_nat i)) st1 = (Ok x, st1))
    ∧ cached_pages (snd (__iter__ st1)) = cached_pages st1
    ∧ index (snd (__iter__ st1)) = 0
    ∧ traverse fuel st1 = (Ok (Some xs), st2)
    ∧ cached_pages st2 = cached_pages st1
    ∧ fetched st2 = fetched st1.
Proof.
  intros Hready Hfilled Hfuel.
  pose proof (conforming_size source_ok) as Hpos.
  pose proof (conforming_total source_ok) as Htotal.
  destruct (for_loop_conforming (Z.to_nat total) fuel [] (with_index 0 st)
              Hready Hfilled ltac:(done) ltac:(simpl; lia) Hfuel)
    as (xs & st1 & Hloop & Hready1 & Hfilled1 & _ & Hlen & Hnth & _).
  simpl in Hloop, Hnth. setoid_rewrite Z.add_0_l in Hnth.
  assert (∀ o, 0 ≤ o < total → is_Some (cached_pages st1 !! (o / size)))
    as Hcovered.
  { intros o Ho. specialize (Hnth (Z.to_nat o) ltac:(lia)).
    rewrite Z2Nat.id in Hnth by lia.
    destruct (lookup_lt_is_Some_2 xs (Z.to_nat o) ltac:(lia)) as [x Hx].
    rewrite Hx in Hnth. unfold cached_item in Hnth.
    destruct (cached_pages st1 !! (o / size)); [by eauto|done]. }
  destruct (for_loop_conforming (Z.to_nat total) fuel [] (with_index 0 st1)
              Hready1 Hfilled1 ltac:(done) ltac:(simpl; lia) Hfuel)
    as (xs2 & st2 & Hloop2 & _ & _ & _ & Hlen2 & Hnth2 & Hsame2).
  simpl in Hloop2, Hnth2. setoid_rewrite Z.add_0_l in Hnth2.
  rewrite Hsame2 in * by (intros o Ho; by apply Hcovered).
  simpl in Hnth2.
  assert (xs2 = xs) as ->.
  { apply list_eq. intros j. destruct (decide (j < Z.to_nat total)%nat) as [Hj|Hj].
    - by rewrite Hnth, Hnth2.
    - by rewrite !lookup_ge_None_2 by lia. }
  exists xs, st1, (with_index total (with_index 0 st1)).
  rewrite !traverse_unfold.
  repeat split; try done; [lia|].
  intros i x Hx.
  assert (i < Z.to_nat total)%nat as Hi by (rewrite <- Hlen; by eapply lookup_lt_Some).
  rewrite Hnth in Hx by done.
  unfold cached_item in Hx.
  destruct (cached_pages st1 !! (Z.of_nat i / size)) as [items|] eqn:Hpage;
    [|done].
  simpl in Hx.
  rewrite (getitem_hit (PyInt (Z.of_nat i)) (Z.of_nat i) size
             (Z.of_nat i / size) items);
    [|done|apply conforming_in_bounds; [done|lia]
     |by apply source_ok|apply conforming_page; lia|done].
  rewrite (list_getitem_lookup _ _ x); [done| |done].
  apply Z.mod_pos_bound. lia.
Qed.

End Conforming.

(** *** A page source over a flat list *)

Section Serving.

Variable ready : Fields → Prop.
Variable flat : list item.
Variable size : Z.
Hypothesis source_ok : serves ready flat size.

(** Within the list the division is exact: the page is the floor
    quotient. *)
Lemma serves_page o :
  0 ≤ o < Z.of_nat (length flat) → int_quotient o size = Ok (o / size).
Proof.
  intros Ho. apply int_quotient_exact; [|apply source_ok].
  pose proof (serves_exact source_ok). lia.
Qed.



(** The hypotheses on the instance hold from [__init__] on, whatever
    the calls made. *)
Lemma serves_fetch_step st st' :
  fetch_step st st' →
  ready (fields st) ∧ pages_of flat size (cached_pages st) →
  ready (fields st') ∧ pages_of flat size (cached_pages st').
Proof.
  intros [Hc Hf _|o size' page0 r Hin Hsize Hq Hpage Hr Hc Hf _]
    [Hready Hpages].
  - by rewrite Hc, Hf.
  - rewrite (serves_page_size source_ok _ Hready) in Hsize.
    injection Hsize as <-.
    destruct Hin as (n & Hlen & Ho).
    destruct (len_Ok_inv _ _ _ Hlen) as (v & Hv & Hn & _).
    rewrite (serves_total_size source_ok _ Hready) in Hv.
    injection Hv as <-. injection Hn as <-.
    rewrite (serves_page o Ho) in Hq. injection Hq as <-.
    pose proof (serves_size source_ok) as Hpos.
    destruct (serves_get_page source_ok (o / size) _ Hready)
      as (Hget & Hready').
    { apply Z.div_pos; lia. }
    { pose proof (Z.div_mod o size). pose proof (Z.mod_pos_bound o size). lia. }
    rewrite Hf, Hc. split; [done|]. rewrite Hget in Hr. subst r.
    intros page items' Hlook.
    destruct (decide (o / size = page)) as [<-|Hne].
    + rewrite lookup_insert_eq in Hlook. by injection Hlook as <-.
    + rewrite lookup_insert_ne in Hlook by done. by eapply Hpages.
Qed.

Lemma slice_length page :
  0 ≤ page →
  Z.min size (Z.of_nat (length flat) - page * size)
    ≤ Z.of_nat (length (slice flat size page)).
Proof.
  intros Hpage. pose proof (serves_size source_ok) as Hpos.
  open_slice. rewrite length_take, length_drop. nia.
Qed.

Lemma serves_conforming : conforming ready (Z.of_nat (length flat)) size.
Proof.
  split.
  - apply source_ok.
  - pose proof (serves_total source_ok). lia.
  - apply source_ok.
  - apply source_ok.
  - apply source_ok.
  - intros page s Hready Hpage Hlt.
    destruct (serves_get_page source_ok page s Hready Hpage Hlt) as [Hget Hr].
    exists (slice flat size page). split; [done|].
    split; [by apply slice_length|done].
Qed.

Lemma serves_run (s : Fields) (cs : list call) :
  ready s →
  ready (fields (run cs (__init__ s)))
  ∧ pages_of flat size (cached_pages (run cs (__init__ s))).
Proof.
  intros Hready. induction cs as [|c cs IH] using rev_ind.
  - split; [done|]. intros page items Hlook. simpl in Hlook.
    by rewrite lookup_empty in Hlook.
  - rewrite run_snoc. eapply serves_fetch_step; [apply exec_fetch_step|done].
Qed.

End Serving.

End Properties.

(** *** The base class on its own *)

Section BaseClass.

Context {item Fields : Type}.
Variable maxsize : N.

Abbreviation base := (@PagedIterator item Fields).

Lemma base_len (st : instance item Fields) : len maxsize base st = (Ok 0, st).
Proof. eapply len_Ok; [done..|lia]. Qed.

Lemma base_fetch_step (st st' : instance item Fields) :
  fetch_step maxsize base st st' → fetched st' = fetched st.
Proof.
  intros [_ _ Hl|o size page r (n & Hlen & Ho) _ _ _ _ _ _ _]; [done|].
  rewrite base_len in Hlen. injection Hlen as <-. lia.
Qed.

(** C6: on an instance of the base class, where nothing is overridden,
    reading [page_size] raises [RuntimeError] (the NotImplemented error),
    calling [get_page] raises [RuntimeError], and [total_size] is 0; so
    [len(self)] is 0, [self[i]] raises [IndexError] for every integer
    [i], a loop over the instance ends at once with no item, and no
    sequence of calls ever reaches [get_page]. *)
Theorem base_class_is_empty (s : Fields) (page : Z)
    (st : instance item Fields) (fuel : nat) (cs : list call) :
  page_size base s = Raise (RuntimeError "page_size() must be implemented.")
  ∧ fst (get_page base page s)
    = Raise (RuntimeError "get_page() must be implemented.")
  ∧ total_size base s = Ok (Scalar (PyInt 0))
  ∧ len maxsize base st = (Ok 0, st)
  ∧ (∀ i : Z,
       __getitem__ maxsize base (PyInt i) st
       = (Raise (IndexError ("Index out of bounds: " +:+ pretty i)), st))
  ∧ (∀ b : bool,
       __getitem__ maxsize base (PyBool b) st
       = (Raise (IndexError ("Index out of bounds: " +:+ str (PyBool b))), st))
  ∧ fst (traverse maxsize base (S fuel) st) = Ok (Some [])
  ∧ fetched (run maxsize base cs st) = fetched st.
Proof.
  repeat split.
  - apply base_len.
  - intros i.
    apply (getitem_rejects_out_of_bounds maxsize base (PyInt i) i 0);
      [done|by rewrite base_len|lia].
  - intros b.
    apply (getitem_rejects_out_of_bounds maxsize base (PyBool b) (Z.b2z b) 0);
      [done|by rewrite base_len|destruct b; simpl; lia].
  - induction cs as [|c cs IH] using rev_ind; [done|].
    rewrite run_snoc, <- IH. apply base_fetch_step, exec_fetch_step.
Qed.

End BaseClass.

(** * The test suite's source, and the flaky one *)

Lemma PagedIterator1_serves :
  serves maxsize64 PagedIterator1.source PagedIterator1.ready
    PagedIterator1.flat 3.
Proof.
  split.
  - lia.
  - by vm_compute.
  - by vm_compute.
  - intros s Hs. by rewrite Hs.
  - intros s Hs. by rewrite Hs.
  - intros page s Hs Hpage Hlt. rewrite Hs. simpl in Hlt.
    assert (page = 0 ∨ page = 1 ∨ page = 2) as [-> | [-> | ->]] by lia;
      by split.
Qed.


Lemma PagedIterator1_new_filled :
  pages_filled 8 3 (cached_pages PagedIterator1.new).
Proof. intros page items Hlook. simpl in Hlook. by rewrite lookup_empty in Hlook. Qed.

(** The tests [test_get_first_element_on_second_page] and
    [test_traverse_list_in_multiple_loops], run on the model. *)
Example PagedIterator1_fourth_item :
  fst (__getitem__ maxsize64 PagedIterator1.source (PyInt 3) PagedIterator1.new)
  = Ok 4.
Proof. by vm_compute. Qed.

Example PagedIterator1_two_loops :
  let it := PagedIterator1.source in
  let '(first, st1) := traverse maxsize64 it 9 PagedIterator1.new in
  let '(second, st2) := traverse maxsize64 it 9 st1 in
  first = Ok (Some [1; 2; 3; 4; 5; 6; 7; 8])
  ∧ second = Ok (Some [1; 2; 3; 4; 5; 6; 7; 8])
  ∧ fetched st2 = [(0, true); (1, true); (2, true)].
Proof. by vm_compute. Qed.


(** C2, on the test suite's source: two loops of at most 9 steps. *)
Lemma iteration_yields_all_twice_witness :
  PagedIterator1.ready (fields PagedIterator1.new)
  ∧ (Z.to_nat 8 < 9)%nat
  ∧ ∃ xs st1 st2,
      traverse maxsize64 PagedIterator1.source 9 PagedIterator1.new
        = (Ok (Some xs), st1)
      ∧ Z.of_nat (length xs) = 8
      ∧ (∀ (i : nat) x, xs !! i = Some x →
           __getitem__ maxsize64 PagedIterator1.source (PyInt (Z.of_nat i)) st1
             = (Ok x, st1))
      ∧ cached_pages (snd (__iter__ st1)) = cached_pages st1
      ∧ index (snd (__iter__ st1)) = 0
      ∧ traverse maxsize64 PagedIterator1.source 9 st1 = (Ok (Some xs), st2)
      ∧ cached_pages st2 = cached_pages st1
      ∧ fetched st2 = fetched st1.
Proof.
  assert (Z.to_nat 8 < 9)%nat as Hfuel by (simpl; lia).
  repeat split; try apply Hfuel.
  exact (iteration_yields_all_twice maxsize64 PagedIterator1.source
           PagedIterator1.ready 8 3
           (serves_conforming maxsize64 PagedIterator1.source
              PagedIterator1.ready PagedIterator1.flat 3 PagedIterator1_serves)
           9%nat PagedIterator1.new eq_refl PagedIterator1_new_filled Hfuel).
Defined.

(** C8, on the test suite's source: [10 in it] is false
    ([test_offset_that_is_after_the_last_element_returns_false]). *)
Lemma contains_iff_in_range_witness :
  as_int (PyInt 10) = Some 10
  ∧ fst (len maxsize64 PagedIterator1.source PagedIterator1.new) = Ok 8
  ∧ ∃ b : bool,
      __contains__ maxsize64 PagedIterator1.source (PyInt 10) PagedIterator1.new
        = (Ok b, PagedIterator1.new)
      ∧ (b = true ↔ 0 ≤ 10 < 8).
Proof.
  split; [reflexivity|]. split; [reflexivity|].
  exact (contains_iff_in_range maxsize64 PagedIterator1.source (PyInt 10) 10 8
           PagedIterator1.new eq_refl eq_refl).
Defined.

(** C9 as stated fails: ['foo' in it] does not return [False], it
    raises. *)
Lemma contains_string_not_false :
  fst (__contains__ maxsize64 PagedIterator1.source (PyStr "foo")
         PagedIterator1.new) = Raise AssertionError
  ∧ fst (__contains__ maxsize64 PagedIterator1.source (PyStr "foo")
           PagedIterator1.new) ≠ Ok false.
Proof. split; [reflexivity|discriminate]. Qed.

(** C9 as the code has it, on the test suite's source. *)
Lemma contains_asserts_int_witness :
  as_int (PyStr "foo") = None
  ∧ __contains__ maxsize64 PagedIterator1.source (PyStr "foo") PagedIterator1.new
    = (Raise AssertionError, PagedIterator1.new).
Proof.
  split; [reflexivity|].
  exact (contains_asserts_int maxsize64 PagedIterator1.source (PyStr "foo")
           PagedIterator1.new eq_refl).
Defined.

(** C4 fails on the code at [it[1, 2]]: the index is the tuple [(1, 2)],
    which is not an integer, and instead of the [ValueError] with its
    message the caller gets the [TypeError] of the message's own
    formatting. *)
Theorem getitem_pair_raises_type_error :
  __getitem__ maxsize64 PagedIterator1.source (PyTuple [PyInt 1; PyInt 2])
    PagedIterator1.new
  = (Raise TypeError, PagedIterator1.new).
Proof. reflexivity. Qed.

Lemma Flaky_warm_in_bounds o :
  0 ≤ o < 4 → in_bounds maxsize64 Flaky.source Flaky.warm o.
Proof. intros Ho. exists 4. split; [reflexivity|done]. Qed.

(** C3 as stated fails: on the flaky source the first [it[2]] raises and
    the second fetches page 1 again, so [get_page] is called twice for
    the page. *)
Lemma flaky_page_requested_twice :
  pages_requested
    (run maxsize64 Flaky.source
       [CallGetitem (PyInt 2); CallGetitem (PyInt 2)] (__init__ 0%nat))
  = [1; 1]
  ∧ ¬ NoDup (pages_requested
       (run maxsize64 Flaky.source
          [CallGetitem (PyInt 2); CallGetitem (PyInt 2)] (__init__ 0%nat))).
Proof.
  split; [reflexivity|].
  change (¬ NoDup [1; 1]). intros Hnd. apply NoDup_cons in Hnd as [Hnotin _].
  apply Hnotin, list_elem_of_here.
Qed.

(** C5, on the flaky source: with page 0 cached, [it[2]] needs page 1,
    whose fetch raises. *)
Lemma fetch_failure_propagates_witness :
  as_int (PyInt 2) = Some 2
  ∧ page_size Flaky.source (fields Flaky.warm) = Ok 2
  ∧ int_quotient 2 2 = Ok 1
  ∧ cached_pages Flaky.warm !! 1 = None
  ∧ fst (get_page Flaky.source 1 (fields Flaky.warm))
    = Raise (OtherError "IOError" "connection reset")
  ∧ let st' := snd (__getitem__ maxsize64 Flaky.source (PyInt 2) Flaky.warm) in
    fst (__getitem__ maxsize64 Flaky.source (PyInt 2) Flaky.warm)
      = Raise (OtherError "IOError" "connection reset")
    ∧ cached_pages st' = cached_pages Flaky.warm
    ∧ index st' = index Flaky.warm
    ∧ fetched st' = fetched Flaky.warm ++ [(1, false)]
    ∧ ∀ offset2 o2,
        as_int offset2 = Some o2 → in_bounds maxsize64 Flaky.source st' o2 →
        page_size Flaky.source (fields st') = Ok 2 →
        int_quotient o2 2 = Ok 1 →
        ∃ outcome : bool,
          fetched (snd (__getitem__ maxsize64 Flaky.source offset2 st'))
            = fetched st' ++ [(1, outcome)].
Proof.
  split; [reflexivity|]. split; [reflexivity|]. split; [by vm_compute|].
  split; [reflexivity|]. split; [reflexivity|].
  exact (fetch_failure_propagates maxsize64 Flaky.source (PyInt 2) 2 2 1
           (OtherError "IOError" "connection reset") Flaky.warm
           eq_refl (Flaky_warm_in_bounds 2 ltac:(lia)) eq_refl
           ltac:(by vm_compute) eq_refl eq_refl).
Defined.

(** C10, on the flaky source: two items into the loop, the third
    [next()] raises from the fetch of page 1 and leaves the cursor
    at 3. *)
Lemma next_advances_before_access_witness :
  total_size Flaky.source (fields Flaky.midway) = Ok (Scalar (PyInt 4))
  ∧ 0 ≤ index Flaky.midway < 4
  ∧ int_quotient (index Flaky.midway) 2 = Ok 1
  ∧ cached_pages Flaky.midway !! 1 = None
  ∧ fst (get_page Flaky.source 1 (fields Flaky.midway))
    = Raise (OtherError "IOError" "connection reset")
  ∧ let st' := snd (next maxsize64 Flaky.source Flaky.midway) in
    fst (next maxsize64 Flaky.source Flaky.midway)
      = Raise (OtherError "IOError" "connection reset")
    ∧ index st' = index Flaky.midway + 1
    ∧ cached_pages st' = cached_pages Flaky.midway
    ∧ ∀ v' n',
        total_size Flaky.source (fields st') = Ok v' → as_int v' = Some n' →
        next maxsize64 Flaky.source st' =
          if decide (n' ≤ index Flaky.midway + 1) then (Raise StopIteration, st')
          else __getitem__ maxsize64 Flaky.source
                 (PyInt (index Flaky.midway + 1))
                 (with_index (index Flaky.midway + 2) st').
Proof.
  assert (0 ≤ index Flaky.midway < 4) as Hi
    by (change (index Flaky.midway) with 2; lia).
  split; [reflexivity|]. split; [exact Hi|]. split; [by vm_compute|].
  split; [reflexivity|]. split; [reflexivity|].
  exact (next_advances_before_access maxsize64 Flaky.source
           (Scalar (PyInt 4)) 4 2 1 (OtherError "IOError" "connection reset")
           Flaky.midway eq_refl eq_refl ltac:(by vm_compute) Hi eq_refl
           ltac:(by vm_compute) eq_refl eq_refl).
Defined.

(** C3, on the test suite's source: [it[4]] returns 5, and returns 5
    again, leaving the instance alone, after [it[0]] and the start of a
    loop. *)
Lemma reads_stable_fetches_once_witness :
  let it := PagedIterator1.source in
  let st1 := snd (__getitem__ maxsize64 it (PyInt 4) PagedIterator1.new) in
  let st2 := run maxsize64 it [CallGetitem (PyInt 0); CallIter; CallNext] st1 in
  __getitem__ maxsize64 it (PyInt 4) PagedIterator1.new = (Ok 5, st1)
  ∧ __getitem__ maxsize64 it (PyInt 4) st2 = (Ok 5, st2)
  ∧ fetched_once (fetched st2).
Proof.
  intros it st1 st2.
  destruct (reads_stable_fetches_once maxsize64 it
              (fields PagedIterator1.new) []) as (Hstable & _ & _ & _).
  destruct (reads_stable_fetches_once maxsize64 it (fields PagedIterator1.new)
              [CallGetitem (PyInt 4); CallGetitem (PyInt 0); CallIter; CallNext])
    as (_ & Honce & _ & _).
  split; [reflexivity|]. split; [|exact Honce].
  apply (Hstable (PyInt 4) 4 3 5 st1
           [CallGetitem (PyInt 0); CallIter; CallNext]);
    try reflexivity.
  exists 8. split; [reflexivity|lia].
Defined.

(** * Further behaviour of the class *)

Section Behaviour.

Context {item Fields : Type}.
Variable maxsize : N.
Variable P : PageSource item Fields.

Abbreviation instance := (instance item Fields).
Abbreviation len := (len maxsize P).
Abbreviation __contains__ := (__contains__ maxsize P).
Abbreviation __getitem__ := (__getitem__ maxsize P).
Abbreviation next := (next maxsize P).
Abbreviation for_loop := (for_loop maxsize P).
Abbreviation traverse := (traverse maxsize P).
Abbreviation exec := (exec maxsize P).
Abbreviation run := (run maxsize P).
Abbreviation in_bounds := (in_bounds maxsize P).
Abbreviation fetch_step := (fetch_step maxsize P).
Abbreviation with_index := (@with_index item Fields).
Abbreviation conforming := (conforming maxsize P).
Abbreviation cursor_after_next := (cursor_after_next P).

Implicit Types (st : instance) (offset : pyobj) (o n size page : Z).

(** *** The length *)

(** X1: [len(self)] returns [n] exactly when [total_size] reads as an
    integer [n] with [0 <= n <= sys.maxsize]; whether it returns or
    raises, the instance is left as it was. *)
Theorem len_returns_iff n st :
  (fst (len st) = Ok n ↔
     ∃ v, total_size P (fields st) = Ok v ∧ as_int v = Some n
          ∧ 0 ≤ n ≤ Z.of_N maxsize)
  ∧ snd (len st) = st.
Proof.
  split; [|apply len_state]. split.
  - intros Hlen. pose proof (len_state maxsize P st) as Hs.
    destruct (len st) as [r st1] eqn:Hl. simpl in *. subst r st1.
    by eapply len_Ok_inv.
  - intros (v & Hv & Hn & Hr). by rewrite (len_Ok maxsize P st v n).
Qed.

(** *** Indexes that are turned down *)

(** X2: an integer index below 0 raises [IndexError] with the message
    [Index out of bounds: <index>] whatever [total_size] is or does; so
    does an index at or above [len(self)].  The instance is left as it
    was, so no page is fetched. *)
Theorem getitem_out_of_bounds (a : scalar) o st :
  as_int a = Some o →
  o < 0 ∨ (∃ n, fst (len st) = Ok n ∧ n ≤ o) →
  __getitem__ a st
  = (Raise (IndexError ("Index out of bounds: " +:+ str a)), st).
Proof.
  intros Ho Hout. apply getitem_outside with (o := o); [done|].
  destruct Hout as [Hneg|(n & Hlen & Hn)].
  - open_contains. rewrite Ho. by rewrite decide_False by lia.
  - rewrite (contains_decides maxsize P _ _ _ _ Ho Hlen).
    by rewrite bool_decide_eq_false_2 by lia.
Qed.

(** X3: an index that is a string or [None] raises [ValueError] with
    the message [Index must be a positive integer: <index>]; neither the
    bounds nor any member of the subclass is looked at, and the instance
    is left as it was. *)
Theorem getitem_not_an_integer (a : scalar) st :
  as_int a = None →
  __getitem__ a st
  = (Raise (ValueError ("Index must be a positive integer: " +:+ str a)), st).
Proof. intros Ho. by rewrite getitem_not_int. Qed.

(** X4: a tuple index is never looked up.  A tuple of one component
    raises [ValueError] whose message shows the component, not the
    tuple; the empty tuple and every longer one raise [TypeError].  The
    instance is left as it was. *)
Theorem getitem_tuple_index (items : list scalar) st :
  __getitem__ (PyTuple items) st
  = (match items with
     | [a] => Raise (ValueError ("Index must be a positive integer: " +:+ str a))
     | _ => Raise TypeError
     end, st).
Proof.
  rewrite getitem_not_int by done. by destruct items as [|a [|b items]].
Qed.

(** X5: when [len(self)] raises [e] (because [total_size] raises, or is
    not an integer, or is negative or too large), a negative integer is
    still reported as not contained, and for a non-negative integer both
    [offset in self] and [self[offset]] raise [e]; nothing is fetched and
    the instance is left as it was. *)
Theorem total_size_failure offset o e st :
  as_int offset = Some o →
  fst (len st) = Raise e →
  (o < 0 → __contains__ offset st = (Ok false, st))
  ∧ (0 ≤ o → __contains__ offset st = (Raise e, st)
             ∧ __getitem__ offset st = (Raise e, st)).
Proof.
  intros Ho Hlen. split.
  - intros Hneg. open_contains. rewrite Ho. by rewrite decide_False by lia.
  - intros Hpos. pose proof (len_state maxsize P st) as Hs.
    destruct (len st) as [r st1] eqn:Hl. simpl in *. subst r st1.
    assert (__contains__ offset st = (Raise e, st)) as Hc.
    { open_contains. rewrite Ho. rewrite decide_True by lia. by rewrite Hl. }
    split; [done|]. open_getitem. by rewrite Ho, Hc.
Qed.

(** X6: [page_size] is read only for an index that passed the bounds
    check, and before any fetch: if reading it raises [e], so does
    [self[offset]], and if it is 0 the division raises
    [ZeroDivisionError]; [get_page] is not called and the instance is
    left as it was. *)
Theorem page_size_failure offset o st :
  as_int offset = Some o → in_bounds st o →
  (∀ e, page_size P (fields st) = Raise e →
        __getitem__ offset st = (Raise e, st))
  ∧ (page_size P (fields st) = Ok 0 →
        __getitem__ offset st = (Raise ZeroDivisionError, st)).
Proof.
  intros Ho Hin.
  pose proof (contains_in_bounds maxsize P _ _ _ Ho Hin) as Hc.
  split.
  - intros e Hsize. open_getitem. rewrite Ho, Hc. simpl. by rewrite Hsize.
  - intros Hsize. apply (getitem_no_page maxsize P offset o 0); try done.
Qed.

(** X7: a [bool] is an integer for the class: within bounds, [it[True]]
    is [it[1]] and [it[False]] is [it[0]], with the same result and the
    same effect on the instance. *)
Theorem getitem_bool_is_int (b : bool) st :
  in_bounds st (Z.b2z b) →
  __getitem__ (PyBool b) st = __getitem__ (PyInt (Z.b2z b)) st.
Proof.
  intros Hin. open_getitem. simpl.
  rewrite (contains_in_bounds maxsize P (PyBool b) (Z.b2z b) st eq_refl Hin).
  by rewrite (contains_in_bounds maxsize P (PyInt (Z.b2z b)) (Z.b2z b) st
                eq_refl Hin).
Qed.

(** *** Pages in the cache *)

(** X8: a page is stored as soon as [get_page] returns it, before the
    item is taken from it.  When the page returned (for the page number
    that line 160 computes) is too short for the index, [self[offset]]
    raises [IndexError] (list index out of range), yet the short page is
    cached: asking again raises the same error from the cache, with no
    new call of [get_page]. *)
Theorem short_page_is_cached offset o size page (items : list item) st :
  as_int offset = Some o → in_bounds st o →
  page_size P (fields st) = Ok size → int_quotient o size = Ok page →
  cached_pages st !! page = None →
  fst (get_page P page (fields st)) = Ok items →
  let st' := snd (__getitem__ offset st) in
  page_size P (fields st') = Ok size →
  Z.of_nat (length items) ≤ o mod size →
  fst (__getitem__ offset st) = Raise (IndexError "list index out of range")
  ∧ cached_pages st' !! page = Some items
  ∧ fetched st' = fetched st ++ [(page, true)]
  ∧ (in_bounds st' o →
     __getitem__ offset st'
     = (Raise (IndexError "list index out of range"), st')).
Proof.
  intros Ho Hin Hsize Hq Hpage Hget.
  pose proof (int_quotient_Ok _ _ _ Hq) as Hnz.
  rewrite (getitem_miss_ok maxsize P _ _ _ _ _ _ Ho Hin Hsize Hq Hpage Hget).
  simpl. intros Hsize' Hshort. rewrite Hsize'.
  assert (list_getitem items (o mod size)
          = Raise (IndexError "list index out of range")) as Hitem.
  { unfold list_getitem.
    destruct (decide (o mod size < 0)) as [|_]; [lia|].
    destruct (decide (o mod size < 0)) as [|_]; [lia|].
    by rewrite lookup_ge_None_2 by lia. }
  unfold py_mod. rewrite decide_False by done. rewrite Hitem.
  rewrite lookup_insert_eq. repeat split.
  intros Hin'.
  rewrite (getitem_hit maxsize P offset o size page items);
    [by rewrite Hitem|done..|].
  simpl. by rewrite lookup_insert_eq.
Qed.

(** X9: items of one page share one fetch.  Once [self[offset]] has
    returned, a read of any valid index for which line 160 computes the
    same page is served from the cached page and leaves the instance as
    it is: [get_page] is not called, even if it would raise by now. *)
Theorem same_page_read_is_cached offset o offset2 o2 size page x st st1 :
  as_int offset = Some o → as_int offset2 = Some o2 →
  __getitem__ offset st = (Ok x, st1) →
  page_size P (fields st) = Ok size →
  page_size P (fields st1) = Ok size →
  in_bounds st1 o2 →
  int_quotient o size = Ok page → int_quotient o2 size = Ok page →
  ∃ items, cached_pages st1 !! page = Some items
           ∧ __getitem__ offset2 st1 = (list_getitem items (o2 mod size), st1).
Proof.
  intros Ho Ho2 Hcall Hsize Hsize1 Hin2 Hq Hq2.
  destruct (getitem_Ok_cached maxsize P _ _ _ _ _ _ Ho Hcall Hsize Hsize1)
    as (page' & items & Hq' & Hpage & _).
  assert (page' = page) as -> by congruence.
  exists items. split; [done|].
  by apply getitem_hit with (page := page).
Qed.

(** X10: on a fresh instance a valid read calls [get_page] exactly
    once, for the page that line 160 computes, whether the call returns
    or raises; for an offset below [2^53] and a positive page size that
    page is the floor quotient [o / size]. *)
Theorem first_read_fetches_its_page (s : Fields) offset o size page :
  as_int offset = Some o → in_bounds (__init__ s) o →
  page_size P s = Ok size → int_quotient o size = Ok page →
  pages_requested (snd (__getitem__ offset (__init__ s))) = [page]
  ∧ (o < 2 ^ 53 → 0 < size → page = o / size).
Proof.
  intros Ho Hin Hsize Hq. split.
  - destruct (fst (get_page P page s)) as [items|e] eqn:Hget.
    + by rewrite (getitem_miss_ok maxsize P offset o size page items
                    (__init__ s)).
    + by rewrite (getitem_miss_raise maxsize P offset o size page e
                    (__init__ s)).
  - intros Ho53 Hpos. destruct Hin as (n & _ & Hn).
    rewrite int_quotient_exact in Hq by lia. by injection Hq.
Qed.

(** *** The cursor *)

Lemma len_with_index (i : Z) st :
  len (with_index i st) = (fst (len st), with_index i st).
Proof.
  open_len. simpl.
  destruct (total_size P (fields st)) as [v|]; [|done].
  destruct (as_int v) as [n|]; [|done].
  by repeat case_decide.
Qed.

Lemma contains_with_index (i : Z) offset st :
  __contains__ offset (with_index i st)
  = (fst (__contains__ offset st), with_index i st).
Proof.
  open_contains.
  destruct (as_int offset) as [o|]; [|done].
  case_decide; [|done].
  rewrite len_with_index.
  pose proof (len_state maxsize P st) as Hs.
  destruct (len st) as [[n|e] st1]; simpl in *; by subst.
Qed.

(** The cursor is nothing to [__getitem__]: it reads and fetches the
    same wherever the cursor stands, and leaves it there. *)
Lemma getitem_with_index (i : Z) offset st :
  __getitem__ offset (with_index i st)
  = (fst (__getitem__ offset st), with_index i (snd (__getitem__ offset st))).
Proof.
  open_getitem.
  destruct (as_int offset) as [o|]; [|by destruct (format_s _ offset)].
  rewrite contains_with_index.
  pose proof (contains_state maxsize P offset st) as Hs.
  destruct (__contains__ offset st) as [[[]|e] st1]; simpl in *; subst st1;
    [|by destruct (format_s _ offset)|done].
  destruct (page_size P (fields st)) as [size|]; [|done]. simpl.
  destruct (int_quotient o size) as [page|]; [|done]. simpl.
  destruct (decide (is_Some (cached_pages st !! page))) as [[items Hpage]|Hmiss].
  - simpl. rewrite Hpage. simpl.
    destruct (page_size P (fields st)) as [size'|]; [|done]. simpl.
    by destruct (py_mod o size') as [j|].
  - unfold call_get_page. simpl.
    destruct (get_page P page (fields st)) as [[items|e] s']; [|done].
    simpl. rewrite lookup_insert_eq. simpl.
    destruct (page_size P s') as [size'|]; [|done]. simpl.
    by destruct (py_mod o size') as [j|].
Qed.

(** X11: only the iterator protocol moves the cursor.  [len],
    [in], [self[...]], item assignment and deletion leave it where it
    is, whatever they return or raise; [__iter__] puts it at 0; [next]
    moves it by one when an item is left, also when reading that item
    fails, and leaves it when the iteration is over or [total_size] is
    no integer. *)
Theorem cursor_moves (c : call) st :
  index (exec c st)
  = match c with
    | CallIter => 0
    | CallNext => cursor_after_next st
    | _ => index st
    end.
Proof.
  destruct c; simpl; try done.
  - by rewrite len_state.
  - by rewrite contains_state.
  - apply getitem_fetch_step.
  - rewrite next_unfold. open_cursor.
    destruct (total_size P (fields st)) as [v|]; [|done].
    destruct (as_int v) as [n|]; [|done].
    case_decide; [done|].
    by rewrite getitem_with_index.
Qed.

(** X12: iteration reads through [__getitem__]: while an item is left,
    [next()] returns or raises exactly what [self[index]] does, with the
    same effect on the cache and the same fetch, and the cursor one
    further. *)
Theorem next_reads_the_cursor v n st :
  total_size P (fields st) = Ok v → as_int v = Some n → index st < n →
  next st
  = (fst (__getitem__ (PyInt (index st)) st),
     with_index (index st + 1) (snd (__getitem__ (PyInt (index st)) st))).
Proof.
  intros Hv Hn Hi. rewrite next_unfold, Hv, Hn.
  rewrite decide_False by lia. apply getitem_with_index.
Qed.

(** X13: a fetch that fails inside a loop.  When the page that line
    160 computes for the cursor is not cached and [get_page] raises [e]
    for it, the [for] loop is left by [e] and the items read so far are
    lost to the caller; but if [e] is [StopIteration] the loop takes it
    for the end of the iteration and ends normally, short of the
    remaining items.  In both cases the cursor has moved past the index
    and nothing was cached. *)
Theorem loop_fetch_failure (fuel : nat) (acc : list item) v n size page e st :
  total_size P (fields st) = Ok v → as_int v = Some n →
  n ≤ Z.of_N maxsize → 0 ≤ index st < n →
  page_size P (fields st) = Ok size →
  int_quotient (index st) size = Ok page →
  cached_pages st !! page = None →
  fst (get_page P page (fields st)) = Raise e →
  let st' := snd (for_loop (S fuel) acc st) in
  fst (for_loop (S fuel) acc st)
  = match e with StopIteration => Ok (Some acc) | _ => Raise e end
  ∧ index st' = index st + 1
  ∧ cached_pages st' = cached_pages st.
Proof.
  intros Hv Hn Hmax Hi Hsize Hnz Hpage Hget.
  assert (in_bounds st (index st)) as Hin.
  { exists n. split; [|lia]. eapply len_Ok; [exact Hv|done|lia]. }
  simpl. rewrite next_unfold, Hv, Hn. rewrite decide_False by lia.
  rewrite getitem_with_index.
  rewrite (getitem_miss_raise maxsize P (PyInt (index st)) (index st) size
             page e); [|done..].
  simpl. by destruct e.
Qed.

(** *** The cache and the record of fetches *)

Lemma elem_of_pages_returned page st :
  page ∈ pages_returned st ↔ (page, true) ∈ fetched st.
Proof.
  unfold pages_returned. rewrite list_elem_of_fmap. split.
  - intros ([q b] & -> & Hq). apply list_elem_of_filter in Hq as [Hb Hq].
    simpl in *. by subst b.
  - intros Hin. exists (page, true). split; [done|].
    by apply list_elem_of_filter.
Qed.

Lemma fetch_step_cached_returned st st' :
  fetch_step st st' →
  (∀ page, is_Some (cached_pages st !! page) ↔ (page, true) ∈ fetched st) →
  ∀ page, is_Some (cached_pages st' !! page) ↔ (page, true) ∈ fetched st'.
Proof.
  intros [Hc _ Hl|o size pg r _ _ _ Hpage Hr Hc _ Hl] Hinv page.
  - by rewrite Hc, Hl.
  - rewrite Hl, Hc, elem_of_app, list_elem_of_singleton, <- Hinv.
    destruct r as [items|e]; simpl.
    + rewrite lookup_insert_is_Some. split.
      * intros [->|[_ Hs]]; [by right|by left].
      * intros [Hs|[= ->]]; [|by left].
        destruct (decide (pg = page)) as [->|Hne]; [by left|by right].
    + split; [by left|]. by intros [Hs|[= _ ?]].
Qed.

(** X14: on an instance made by [__init__], after any calls, the cache
    holds a page exactly when a call of [get_page] for it has returned:
    the class caches nothing of its own making and drops nothing it
    fetched. *)
Theorem cache_holds_returned_pages (s : Fields) (cs : list call) page :
  is_Some (cached_pages (run cs (__init__ s)) !! page)
  ↔ page ∈ pages_returned (run cs (__init__ s)).
Proof.
  rewrite elem_of_pages_returned. revert page.
  induction cs as [|c cs IH] using rev_ind.
  - intros page. simpl. rewrite lookup_empty. split.
    + by intros [? ?].
    + intros Hin. by apply elem_of_nil in Hin.
  - rewrite run_snoc.
    by apply (fetch_step_cached_returned _ _ (exec_fetch_step maxsize P c _)).
Qed.

Section ConformingSource.

Variable ready : Fields → Prop.
Variables total size : Z.
Hypothesis source_ok : conforming ready total size.

Lemma page_in_range o :
  0 ≤ o < total → 0 ≤ o / size < page_count total size.
Proof.
  intros Ho. pose proof (conforming_size source_ok) as Hpos.
  split; [apply Z.div_pos; lia|].
  unfold page_count. apply Z.div_lt_upper_bound; [lia|].
  pose proof (Z.div_mod (total + size - 1) size ltac:(lia)).
  pose proof (Z.mod_pos_bound (total + size - 1) size Hpos). lia.
Qed.

(** X15: over a conforming page source (of at most [2^53] items),
    every call of [get_page] the class makes, through whatever calls of a client, is for a page within
    [0 <= page < ceil(total / size)], and returns: the class never asks
    for a page past the last one. *)
Theorem every_fetch_in_range (s : Fields) (cs : list call) page (ok : bool) :
  ready s →
  (page, ok) ∈ fetched (run cs (__init__ s)) →
  ok = true ∧ 0 ≤ page < page_count total size.
Proof.
  intros Hready. revert page ok.
  induction cs as [|c cs IH] using rev_ind; intros page ok Hin.
  - by apply elem_of_nil in Hin.
  - rewrite run_snoc in Hin.
    destruct (conforming_run maxsize P ready total size source_ok s cs Hready)
      as [Hr _].
    destruct (exec_fetch_step maxsize P c (run cs (__init__ s)))
      as [_ _ Hl|o size' pg r Hb Hsize Hq Hpage Hres _ _ Hl];
      rewrite Hl in Hin; [by apply IH|].
    apply elem_of_app in Hin as [Hin|Hin]; [by apply IH|].
    apply list_elem_of_singleton in Hin. injection Hin as -> ->.
    rewrite (conforming_page_size source_ok _ Hr) in Hsize.
    injection Hsize as <-.
    destruct Hb as (n & Hlen & Ho).
    destruct (len_Ok_inv maxsize P _ _ _ Hlen) as (v & Hv & Hn & _).
    rewrite (conforming_total_size source_ok _ Hr) in Hv.
    injection Hv as <-. injection Hn as <-.
    rewrite (conforming_page maxsize P ready total size source_ok o Ho) in Hq.
    injection Hq as <-.
    destruct (page_in_range o Ho) as [Hp0 Hp1].
    destruct (conforming_get_page source_ok (o / size) _ Hr Hp0)
      as (items & Hget & _).
    { pose proof (conforming_size source_ok).
      pose proof (Z.div_mod o size). pose proof (Z.mod_pos_bound o size). lia. }
    rewrite Hget in Hres. subst r. done.
Qed.

(** *** A whole pass *)

Lemma page_count_next i : 0 ≤ i → page_count (i + 1) size = i / size + 1.
Proof.
  intros Hi. pose proof (conforming_size source_ok) as Hpos.
  unfold page_count. replace (i + 1 + size - 1) with (i + 1 * size) by lia.
  by rewrite Z.div_add by lia.
Qed.

Lemma page_count_here i :
  0 ≤ i →
  page_count i size = if decide (i mod size = 0) then i / size else i / size + 1.
Proof.
  intros Hi. pose proof (conforming_size source_ok) as Hpos.
  pose proof (Z.div_mod i size ltac:(lia)) as Hdiv.
  pose proof (Z.mod_pos_bound i size Hpos) as Hmod.
  unfold page_count. symmetry. case_decide.
  - apply Z.div_unique with (r := size - 1); lia.
  - apply Z.div_unique with (r := i mod size - 1); lia.
Qed.

Lemma fetched_in_order_succ count :
  0 ≤ count →
  fetched_in_order (count + 1) = fetched_in_order count ++ [(count, true)].
Proof.
  intros Hc. unfold fetched_in_order.
  rewrite (seqZ_app 0 count 1) by lia. rewrite fmap_app. by f_equal.
Qed.

(** From a cursor behind which every page was fetched once, in order,
    the rest of the loop fetches the remaining pages once, in order. *)
Lemma for_loop_trace (k : nat) :
  ∀ (fuel : nat) (acc : list item) st,
    ready (fields st) → pages_filled total size (cached_pages st) →
    0 ≤ index st → Z.of_nat k = total - index st → (k < fuel)%nat →
    (∀ page, is_Some (cached_pages st !! page)
             ↔ 0 ≤ page < page_count (index st) size) →
    fetched st = fetched_in_order (page_count (index st) size) →
    fetched (snd (for_loop fuel acc st))
    = fetched_in_order (page_count total size).
Proof.
  pose proof (conforming_size source_ok) as Hpos.
  induction k as [|k IH];
    intros fuel acc st Hready Hfilled Hi Hk Hfuel Hcached Hlog;
    (destruct fuel as [|fuel]; [lia|]); simpl;
    rewrite next_unfold, (conforming_total_size source_ok _ Hready); simpl.
  - rewrite decide_True by lia. simpl. rewrite Hlog. do 2 f_equal. lia.
  - rewrite decide_False by lia.
    destruct (getitem_conforming maxsize P ready total size source_ok
                (PyInt (index st)) (index st) (with_index (index st + 1) st)
                Hready Hfilled eq_refl ltac:(lia))
      as (x & st1 & Hget & Hready1 & Hfilled1 & Hidx1 & _ & _ & Hsame).
    rewrite Hget. simpl in Hidx1, Hsame.
    assert (0 ≤ index st / size) as Hp0 by (apply Z.div_pos; lia).
    pose proof (page_count_here (index st) Hi) as Hhere.
    pose proof (page_count_next (index st) Hi) as Hnext.
    apply IH; try done; try lia; rewrite Hidx1, Hnext.
    + (* the cache behind the new cursor *)
      intros page. case_decide as Hmod.
      * assert (cached_pages st !! (index st / size) = None) as Hpage.
        { apply eq_None_not_Some. rewrite Hcached. lia. }
        destruct (conforming_get_page source_ok (index st / size) _ Hready Hp0)
          as (items & Hfetch & _).
        { pose proof (Z.div_mod (index st) size).
          pose proof (Z.mod_pos_bound (index st) size). lia. }
        rewrite (getitem_miss_ok maxsize P (PyInt (index st)) (index st) size
                   (index st / size) items (with_index (index st + 1) st))
          in Hget;
          [|done|by apply (conforming_in_bounds maxsize P ready total size);
                 [|done|lia]
           |by apply source_ok
           |by apply (conforming_page maxsize P ready total size source_ok);
               lia
           |done|done].
        injection Hget as _ <-. simpl.
        rewrite lookup_insert_is_Some, Hcached, Hhere.
        destruct (decide (index st / size = page)); lia.
      * rewrite Hsame by (apply Hcached; lia). simpl.
        rewrite Hcached, Hhere. done.
    + (* the record of fetches *)
      case_decide as Hmod.
      * assert (cached_pages st !! (index st / size) = None) as Hpage.
        { apply eq_None_not_Some. rewrite Hcached. lia. }
        destruct (conforming_get_page source_ok (index st / size) _ Hready Hp0)
          as (items & Hfetch & _).
        { pose proof (Z.div_mod (index st) size).
          pose proof (Z.mod_pos_bound (index st) size). lia. }
        rewrite (getitem_miss_ok maxsize P (PyInt (index st)) (index st) size
                   (index st / size) items (with_index (index st + 1) st))
          in Hget;
          [|done|by apply (conforming_in_bounds maxsize P ready total size);
                 [|done|lia]
           |by apply source_ok
           |by apply (conforming_page maxsize P ready total size source_ok);
               lia
           |done|done].
        injection Hget as _ <-. simpl.
        by rewrite Hlog, Hhere, fetched_in_order_succ.
      * rewrite Hsame by (apply Hcached; lia). simpl.
        by rewrite Hlog, Hhere.
Qed.

(** X16: one request per page.  Over a conforming page source (of at
    most [2^53] items), a loop over a fresh instance calls [get_page] once for each of the pages
    [0, 1, ..., ceil(total / size) - 1], in that order, and for nothing
    else; every call returns. *)
Theorem full_pass_fetches_in_order (s : Fields) (fuel : nat) :
  ready s → (Z.to_nat total < fuel)%nat →
  fetched (snd (traverse fuel (__init__ s)))
  = fetched_in_order (page_count total size).
Proof.
  intros Hready Hfuel.
  pose proof (conforming_size source_ok) as Hpos.
  pose proof (conforming_total source_ok) as Htotal.
  assert (page_count 0 size = 0) as Hzero.
  { rewrite page_count_here by done. by rewrite Z.mod_0_l, Z.div_0_l by lia. }
  rewrite traverse_unfold.
  apply (for_loop_trace (Z.to_nat total)); simpl; [done| |done|lia|done| |].
  - intros page items Hlook. by rewrite lookup_empty in Hlook.
  - intros page. rewrite Hzero, lookup_empty. split; [by intros [? ?]|lia].
  - by rewrite Hzero.
Qed.

Lemma for_loop_cursor (k : nat) :
  ∀ (fuel : nat) (acc : list item) st,
    ready (fields st) → pages_filled total size (cached_pages st) →
    0 ≤ index st → Z.of_nat k = total - index st → (k < fuel)%nat →
    index (snd (for_loop fuel acc st)) = total
    ∧ ready (fields (snd (for_loop fuel acc st))).
Proof.
  induction k as [|k IH]; intros fuel acc st Hready Hfilled Hi Hk Hfuel;
    (destruct fuel as [|fuel]; [lia|]); simpl;
    rewrite next_unfold, (conforming_total_size source_ok _ Hready); simpl.
  - rewrite decide_True by lia. simpl. split; [lia|done].
  - rewrite decide_False by lia.
    destruct (getitem_conforming maxsize P ready total size source_ok
                (PyInt (index st)) (index st) (with_index (index st + 1) st)
                Hready Hfilled eq_refl ltac:(lia))
      as (x & st1 & Hget & Hready1 & Hfilled1 & Hidx1 & _).
    rewrite Hget. simpl in Hidx1. apply IH; try done; lia.
Qed.

(** X17: over a conforming page source (of at most [2^53] items), a
    loop leaves the cursor at [total], and the iterator stays exhausted: every further [next()]
    raises [StopIteration] and changes nothing, until [__iter__] is
    called again. *)
Theorem iterator_stays_exhausted (fuel k : nat) st :
  ready (fields st) → pages_filled total size (cached_pages st) →
  (Z.to_nat total < fuel)%nat →
  let st1 := snd (traverse fuel st) in
  index st1 = total
  ∧ next st1 = (Raise StopIteration, st1)
  ∧ run (replicate k CallNext) st1 = st1.
Proof.
  intros Hready Hfilled Hfuel.
  pose proof (conforming_total source_ok) as Htotal.
  rewrite traverse_unfold. simpl.
  destruct (for_loop_cursor (Z.to_nat total) fuel [] (with_index 0 st)
              Hready Hfilled ltac:(done) ltac:(simpl; lia) Hfuel)
    as [Hidx Hready1].
  set (st1 := snd (for_loop fuel [] (with_index 0 st))) in *.
  assert (next st1 = (Raise StopIteration, st1)) as Hnext.
  { rewrite next_unfold, (conforming_total_size source_ok _ Hready1). simpl.
    by rewrite decide_True by lia. }
  repeat split; [done..|].
  induction k as [|k IH]; [done|].
  simpl. by rewrite Hnext.
Qed.

End ConformingSource.

End Behaviour.

(** * The further behaviour, on the sources above *)

Lemma PagedIterator1_conforming :
  conforming maxsize64 PagedIterator1.source PagedIterator1.ready 8 3.
Proof.
  exact (serves_conforming maxsize64 PagedIterator1.source
           PagedIterator1.ready PagedIterator1.flat 3 PagedIterator1_serves).
Qed.

Lemma PagedIterator1_new_in_bounds o :
  0 ≤ o < 8 →
  in_bounds maxsize64 PagedIterator1.source PagedIterator1.new o.
Proof. intros Ho. exists 8. split; [reflexivity|done]. Qed.

(** X2, on the test suite's source: [it[15]]
    ([test_fetching_an_out_of_bounds_index_throws_exception]). *)
Lemma getitem_out_of_bounds_witness :
  as_int (PyInt 15) = Some 15
  ∧ fst (len maxsize64 PagedIterator1.source PagedIterator1.new) = Ok 8
  ∧ __getitem__ maxsize64 PagedIterator1.source (PyInt 15) PagedIterator1.new
    = (Raise (IndexError ("Index out of bounds: " +:+ str (PyInt 15))),
       PagedIterator1.new).
Proof.
  assert (8 ≤ 15) as Hle by lia.
  split; [reflexivity|]. split; [reflexivity|].
  exact (getitem_out_of_bounds maxsize64 PagedIterator1.source (PyInt 15) 15
           PagedIterator1.new eq_refl
           (or_intror (ex_intro _ 8 (conj eq_refl Hle)))).
Defined.

(** X3, on the test suite's source: [it['foo']]
    ([test_fetching_a_string_index_is_not_allowed]). *)
Lemma getitem_not_an_integer_witness :
  as_int (PyStr "foo") = None
  ∧ __getitem__ maxsize64 PagedIterator1.source (PyStr "foo") PagedIterator1.new
    = (Raise (ValueError
                ("Index must be a positive integer: " +:+ str (PyStr "foo"))),
       PagedIterator1.new).
Proof.
  split; [reflexivity|].
  exact (getitem_not_an_integer maxsize64 PagedIterator1.source (PyStr "foo")
           PagedIterator1.new eq_refl).
Defined.

(** X5, on a stand-in whose [total_size] is -1: [len] raises
    [ValueError]. *)
Lemma total_size_failure_witness :
  let it := Mock.source (Ok 3) (Ok (Scalar (PyInt (-1)))) (Ok [1]) in
  let e := ValueError "__len__() should return >= 0" in
  as_int (PyInt 0) = Some 0
  ∧ fst (len maxsize64 it Mock.new) = Raise e
  ∧ (0 < 0 → __contains__ maxsize64 it (PyInt 0) Mock.new
              = (Ok false, __init__ ()))
  ∧ (0 ≤ 0 → __contains__ maxsize64 it (PyInt 0) Mock.new
              = (Raise e, __init__ ())
            ∧ __getitem__ maxsize64 it (PyInt 0) Mock.new
              = (Raise e, __init__ ())).
Proof.
  intros it e. split; [reflexivity|]. split; [reflexivity|].
  exact (total_size_failure maxsize64 it (PyInt 0) 0 e Mock.new
           eq_refl eq_refl).
Defined.

(** X6, on a stand-in that overrides [total_size] and [get_page] but
    not [page_size]. *)
Lemma page_size_failure_witness :
  let it := Mock.source (Raise (RuntimeError "page_size() must be implemented."))
              (Ok (Scalar (PyInt 5))) (Ok [1]) in
  as_int (PyInt 0) = Some 0
  ∧ in_bounds maxsize64 it Mock.new 0
  ∧ (∀ e, page_size it (fields Mock.new) = Raise e →
          __getitem__ maxsize64 it (PyInt 0) Mock.new
          = (Raise e, __init__ ()))
  ∧ (page_size it (fields Mock.new) = Ok 0 →
          __getitem__ maxsize64 it (PyInt 0) Mock.new
          = (Raise ZeroDivisionError, __init__ ())).
Proof.
  intros it.
  assert (in_bounds maxsize64 it Mock.new 0) as Hin
    by (exists 5; split; [reflexivity|lia]).
  split; [reflexivity|]. split; [exact Hin|].
  exact (page_size_failure maxsize64 it (PyInt 0) 0 Mock.new eq_refl Hin).
Defined.

(** X7, on the test suite's source: [it[True]] is [it[1]]. *)
Lemma getitem_bool_is_int_witness :
  in_bounds maxsize64 PagedIterator1.source PagedIterator1.new (Z.b2z true)
  ∧ __getitem__ maxsize64 PagedIterator1.source (PyBool true) PagedIterator1.new
    = __getitem__ maxsize64 PagedIterator1.source (PyInt (Z.b2z true))
        PagedIterator1.new.
Proof.
  assert (in_bounds maxsize64 PagedIterator1.source PagedIterator1.new
            (Z.b2z true)) as Hin
    by (apply PagedIterator1_new_in_bounds; simpl; lia).
  split; [exact Hin|].
  exact (getitem_bool_is_int maxsize64 PagedIterator1.source true
           PagedIterator1.new Hin).
Defined.

(** X8, on a stand-in that returns the page [[1]] for pages of size 3
    (the mock of [test_values_of_the_same_index_are_cached]): [it[1]]. *)
Lemma short_page_is_cached_witness :
  let it := Mock.source (Ok 3) (Ok (Scalar (PyInt 8))) (Ok [1]) in
  let st' := snd (__getitem__ maxsize64 it (PyInt 1) Mock.new) in
  in_bounds maxsize64 it Mock.new 1
  ∧ int_quotient 1 3 = Ok 0
  ∧ Z.of_nat (length [1]) ≤ 1 mod 3
  ∧ fst (__getitem__ maxsize64 it (PyInt 1) Mock.new)
    = Raise (IndexError "list index out of range")
  ∧ cached_pages st' !! 0 = Some [1]
  ∧ fetched st' = fetched Mock.new ++ [(0, true)]
  ∧ (in_bounds maxsize64 it st' 1 →
     __getitem__ maxsize64 it (PyInt 1) st'
     = (Raise (IndexError "list index out of range"), st')).
Proof.
  intros it st'.
  assert (in_bounds maxsize64 it Mock.new 1) as Hin
    by (exists 8; split; [reflexivity|lia]).
  assert (int_quotient 1 3 = Ok 0) as Hq by (by vm_compute).
  assert (Z.of_nat (length [1]) ≤ 1 mod 3) as Hshort by (by vm_compute).
  split; [exact Hin|]. split; [exact Hq|]. split; [exact Hshort|].
  exact (short_page_is_cached maxsize64 it (PyInt 1) 1 3 0 [1] Mock.new
           eq_refl Hin eq_refl Hq eq_refl eq_refl eq_refl Hshort).
Defined.

(** X9, on the test suite's source: [it[0]], then [it[1]]
    ([test_values_of_the_same_pages_are_cached]). *)
Lemma same_page_read_is_cached_witness :
  let it := PagedIterator1.source in
  let st1 := snd (__getitem__ maxsize64 it (PyInt 0) PagedIterator1.new) in
  __getitem__ maxsize64 it (PyInt 0) PagedIterator1.new = (Ok 1, st1)
  ∧ in_bounds maxsize64 it st1 1
  ∧ int_quotient 0 3 = Ok 0 ∧ int_quotient 1 3 = Ok 0
  ∧ ∃ items, cached_pages st1 !! 0 = Some items
      ∧ __getitem__ maxsize64 it (PyInt 1) st1
        = (list_getitem items (1 mod 3), st1).
Proof.
  intros it st1.
  assert (in_bounds maxsize64 it st1 1) as Hin
    by (exists 8; split; [reflexivity|lia]).
  assert (int_quotient 0 3 = Ok 0) as Hq by (by vm_compute).
  assert (int_quotient 1 3 = Ok 0) as Hq2 by (by vm_compute).
  split; [by vm_compute|]. split; [exact Hin|].
  split; [exact Hq|]. split; [exact Hq2|].
  exact (same_page_read_is_cached maxsize64 it (PyInt 0) 0 (PyInt 1) 1 3 0 1
           PagedIterator1.new st1 eq_refl eq_refl ltac:(by vm_compute)
           eq_refl eq_refl Hin Hq Hq2).
Defined.

(** X10, on the test suite's source: [it[4]] asks for page 1. *)
Lemma first_read_fetches_its_page_witness :
  in_bounds maxsize64 PagedIterator1.source
    (__init__ (fields PagedIterator1.new)) 4
  ∧ page_size PagedIterator1.source (fields PagedIterator1.new) = Ok 3
  ∧ int_quotient 4 3 = Ok 1
  ∧ pages_requested
      (snd (__getitem__ maxsize64 PagedIterator1.source (PyInt 4)
              (__init__ (fields PagedIterator1.new))))
    = [1]
  ∧ (4 < 2 ^ 53 → 0 < 3 → 1 = 4 / 3).
Proof.
  assert (in_bounds maxsize64 PagedIterator1.source
            (__init__ (fields PagedIterator1.new)) 4) as Hin
    by (apply PagedIterator1_new_in_bounds; lia).
  assert (int_quotient 4 3 = Ok 1) as Hq by (by vm_compute).
  split; [exact Hin|]. split; [reflexivity|]. split; [exact Hq|].
  exact (first_read_fetches_its_page maxsize64 PagedIterator1.source
           (fields PagedIterator1.new) (PyInt 4) 4 3 1 eq_refl Hin eq_refl
           Hq).
Defined.

(** X12, on the test suite's source: the first [next()]. *)
Lemma next_reads_the_cursor_witness :
  let it := PagedIterator1.source in
  let st := PagedIterator1.new in
  total_size it (fields st) = Ok (Scalar (PyInt 8))
  ∧ index st < 8
  ∧ next maxsize64 it st
    = (fst (__getitem__ maxsize64 it (PyInt (index st)) st),
       with_index (index st + 1)
         (snd (__getitem__ maxsize64 it (PyInt (index st)) st))).
Proof.
  intros it st.
  assert (index st < 8) as Hi by (change (index st) with 0; lia).
  split; [reflexivity|]. split; [exact Hi|].
  exact (next_reads_the_cursor maxsize64 it (Scalar (PyInt 8)) 8 st
           eq_refl eq_refl Hi).
Defined.

(** X13, on the flaky source: two items into a loop, the fetch of
    page 1 raises and the loop is left by the error. *)
Lemma loop_fetch_failure_witness :
  let e := OtherError "IOError" "connection reset" in
  let st' := snd (for_loop maxsize64 Flaky.source 3 [10; 20] Flaky.midway) in
  0 ≤ index Flaky.midway < 4
  ∧ int_quotient (index Flaky.midway) 2 = Ok 1
  ∧ cached_pages Flaky.midway !! 1 = None
  ∧ fst (get_page Flaky.source 1 (fields Flaky.midway)) = Raise e
  ∧ fst (for_loop maxsize64 Flaky.source 3 [10; 20] Flaky.midway) = Raise e
  ∧ index st' = index Flaky.midway + 1
  ∧ cached_pages st' = cached_pages Flaky.midway.
Proof.
  intros e st'.
  assert (0 ≤ index Flaky.midway < 4) as Hi
    by (change (index Flaky.midway) with 2; lia).
  assert (int_quotient (index Flaky.midway) 2 = Ok 1) as Hq
    by (by vm_compute).
  split; [exact Hi|]. split; [exact Hq|].
  split; [reflexivity|]. split; [reflexivity|].
  exact (loop_fetch_failure maxsize64 Flaky.source 2 [10; 20]
           (Scalar (PyInt 4)) 4 2 1 e Flaky.midway eq_refl eq_refl
           ltac:(by vm_compute) Hi eq_refl Hq eq_refl eq_refl).
Defined.

(** X15, on the test suite's source: [it[7]] fetched page 2, the last
    of [ceil(8 / 3) = 3] pages. *)
Lemma every_fetch_in_range_witness :
  let st := run maxsize64 PagedIterator1.source [CallGetitem (PyInt 7)]
              (__init__ (fields PagedIterator1.new)) in
  PagedIterator1.ready (fields PagedIterator1.new)
  ∧ (2, true) ∈ fetched st
  ∧ true = true ∧ 0 ≤ 2 < page_count 8 3.
Proof.
  intros st.
  assert ((2, true) ∈ fetched st) as Hin by apply list_elem_of_here.
  split; [reflexivity|]. split; [exact Hin|].
  exact (every_fetch_in_range maxsize64 PagedIterator1.source
           PagedIterator1.ready 8 3 PagedIterator1_conforming
           (fields PagedIterator1.new) [CallGetitem (PyInt 7)] 2 true
           eq_refl Hin).
Defined.

(** X16, on the test suite's source: a loop fetches pages 0, 1, 2. *)
Lemma full_pass_fetches_in_order_witness :
  PagedIterator1.ready (fields PagedIterator1.new)
  ∧ (Z.to_nat 8 < 9)%nat
  ∧ fetched (snd (traverse maxsize64 PagedIterator1.source 9
                    (__init__ (fields PagedIterator1.new))))
    = fetched_in_order (page_count 8 3).
Proof.
  assert (Z.to_nat 8 < 9)%nat as Hfuel by (simpl; lia).
  split; [reflexivity|]. split; [exact Hfuel|].
  exact (full_pass_fetches_in_order maxsize64 PagedIterator1.source
           PagedIterator1.ready 8 3 PagedIterator1_conforming
           (fields PagedIterator1.new) 9%nat eq_refl Hfuel).
Defined.

(** X17, on the test suite's source: after a loop, two more [next()]. *)
Lemma iterator_stays_exhausted_witness :
  let it := PagedIterator1.source in
  let st1 := snd (traverse maxsize64 it 9 PagedIterator1.new) in
  PagedIterator1.ready (fields PagedIterator1.new)
  ∧ (Z.to_nat 8 < 9)%nat
  ∧ index st1 = 8
  ∧ next maxsize64 it st1 = (Raise StopIteration, st1)
  ∧ run maxsize64 it (replicate 2 CallNext) st1 = st1.
Proof.
  intros it st1.
  assert (Z.to_nat 8 < 9)%nat as Hfuel by (simpl; lia).
  split; [reflexivity|]. split; [exact Hfuel|].
  exact (iterator_stays_exhausted maxsize64 it PagedIterator1.ready 8 3
           PagedIterator1_conforming 9%nat 2%nat PagedIterator1.new
           eq_refl PagedIterator1_new_filled Hfuel).
Defined.
